(** * hsedeadlinerbot: the spreadsheet extractors, the formatters, the reminder
    tick and the upload handler of [bot.py], embedded as Rocq functions.

    Python values are modelled as the program has them: [str] is a sequence of
    Unicode code points, a spreadsheet row is a tuple of cells indexed from 0,
    a raised exception is the [Raise] branch of [result], and the handlers
    thread an explicit [World] (files on disk, the job queue, the outbox of the
    chat transport and the per-user flag). *)

From Stdlib Require Import String Ascii.
From Stdlib Require Import ZArith DecimalZ List Bool Lia Permutation Sorted.
Import ListNotations.
Local Open Scope Z_scope.

(* ===================================================================== *)
(** * Python strings *)
(* ===================================================================== *)

(** A code point, and a Python [str]. *)
Definition char := Z.
Definition str := list char.

Fixpoint bytes_of (s : string) : list Z :=
  match s with
  | EmptyString => []
  | String a s' => Z.of_N (N_of_ascii a) :: bytes_of s'
  end.

(** One step of UTF-8 decoding: the state is the reversed output, the code
    point being assembled and the number of continuation bytes still due. *)
Definition utf8_step (st : str * (Z * nat)) (b : Z) : str * (Z * nat) :=
  let '(out, (acc, need)) := st in
  match need with
  | O =>
      if b <? 128 then (b :: out, (0, O))
      else if b <? 224 then (out, (b mod 32, 1%nat))
      else if b <? 240 then (out, (b mod 16, 2%nat))
      else (out, (b mod 8, 3%nat))
  | S O => ((acc * 64 + b mod 64) :: out, (0, O))
  | S n => (out, (acc * 64 + b mod 64, n))
  end.

(** The [str] written by a source literal (the file is UTF-8). *)
Definition lit (s : string) : str :=
  rev (fst (fold_left utf8_step (bytes_of s) ([], (0, O)))).

Fixpoint str_eqb (a b : str) : bool :=
  match a, b with
  | [], [] => true
  | x :: a', y :: b' => (x =? y) && str_eqb a' b'
  | _, _ => false
  end.

(** Truthiness of a [str]: the empty string is falsy. *)
Definition truthy (s : str) : bool :=
  match s with [] => false | _ :: _ => true end.

(** [str.isspace] on one code point: the whitespace table of CPython. *)
Definition isspace (c : char) : bool :=
  ((9 <=? c) && (c <=? 13)) || ((28 <=? c) && (c <=? 32))
  || (c =? 133) || (c =? 160) || (c =? 5760)
  || ((8192 <=? c) && (c <=? 8202))
  || (c =? 8232) || (c =? 8233) || (c =? 8239) || (c =? 8287) || (c =? 12288).

Fixpoint drop_while (p : char -> bool) (s : str) : str :=
  match s with
  | [] => []
  | c :: s' => if p c then drop_while p s' else s
  end.

Definition lstrip (s : str) : str := drop_while isspace s.
Definition rstrip (s : str) : str := rev (drop_while isspace (rev s)).

(** [s.strip()] *)
Definition strip (s : str) : str := rstrip (lstrip s).

(** [s.lower()]: the upper-case ASCII letters are mapped; no other code point
    lowers to a letter of the suffixes tested by the program. *)
Definition lower_char (c : char) : char :=
  if (65 <=? c) && (c <=? 90) then c + 32 else c.
Definition lower (s : str) : str := map lower_char s.

Fixpoint startswith (s pre : str) : bool :=
  match pre, s with
  | [], _ => true
  | p :: pre', c :: s' => (c =? p) && startswith s' pre'
  | _ :: _, [] => false
  end.

(** [s.endswith(suf)] *)
Definition endswith (s suf : str) : bool := startswith (rev s) (rev suf).

(** [sep.join(parts)] *)
Fixpoint join (sep : str) (parts : list str) : str :=
  match parts with
  | [] => []
  | [p] => p
  | p :: rest => p ++ sep ++ join sep rest
  end.

(** [html.escape(s)] with the default [quote=True]. *)
Definition escape_char (c : char) : str :=
  if c =? 38 then lit "&amp;"
  else if c =? 60 then lit "&lt;"
  else if c =? 62 then lit "&gt;"
  else if c =? 34 then lit "&quot;"
  else if c =? 39 then lit "&#x27;"
  else [c].
Definition html_escape (s : str) : str := flat_map escape_char s.

Fixpoint uint_digits (d : Decimal.uint) : str :=
  match d with
  | Decimal.Nil => []
  | Decimal.D0 d' => 48 :: uint_digits d'
  | Decimal.D1 d' => 49 :: uint_digits d'
  | Decimal.D2 d' => 50 :: uint_digits d'
  | Decimal.D3 d' => 51 :: uint_digits d'
  | Decimal.D4 d' => 52 :: uint_digits d'
  | Decimal.D5 d' => 53 :: uint_digits d'
  | Decimal.D6 d' => 54 :: uint_digits d'
  | Decimal.D7 d' => 55 :: uint_digits d'
  | Decimal.D8 d' => 56 :: uint_digits d'
  | Decimal.D9 d' => 57 :: uint_digits d'
  end.

(** [str(n)] for an [int]. *)
Definition str_of_int (n : Z) : str :=
  match Z.to_int n with
  | Decimal.Pos d => uint_digits d
  | Decimal.Neg d => 45 :: uint_digits d
  end.

(** Left padding with zeros to [width] digits, as [%02d] and [%04d] do. *)
Definition zero_pad (width : nat) (n : Z) : str :=
  let s := str_of_int n in
  repeat 48 (width - length s) ++ s.

(* ===================================================================== *)
(** * Exceptions *)
(* ===================================================================== *)

(** The exceptions the modelled code can raise, each with the text that
    [str(exc)] gives. [LoadError] stands for whatever [load_workbook] raises
    on a missing or unreadable file. *)
Inductive exn :=
| ValueError (msg : str)
| IndexError (msg : str)
| OverflowError (msg : str)
| LoadError (msg : str).

Definition exn_str (e : exn) : str :=
  match e with
  | ValueError m | IndexError m | OverflowError m | LoadError m => m
  end.

Inductive result (A : Type) :=
| Ok (a : A)
| Raise (e : exn).
Arguments Ok {A} a.
Arguments Raise {A} e.

Definition bind {A B : Type} (r : result A) (k : A -> result B) : result B :=
  match r with
  | Ok a => k a
  | Raise e => Raise e
  end.

Notation "x <- e ;; k" := (bind e (fun x => k))
  (at level 61, e at next level, right associativity).

(** A [for] loop whose body may raise: the first exception leaves the loop. *)
Fixpoint for_each {A S : Type} (body : A -> S -> result S) (xs : list A) (s : S)
  : result S :=
  match xs with
  | [] => Ok s
  | x :: rest => s' <- body x s ;; for_each body rest s'
  end.

(** [t[i]] on a tuple. *)
Definition getitem {A : Type} (t : list A) (i : nat) : result A :=
  match nth_error t i with
  | Some x => Ok x
  | None => Raise (IndexError (lit "tuple index out of range"))
  end.

Definition is_nil {A : Type} (l : list A) : bool :=
  match l with [] => true | _ :: _ => false end.

(* ===================================================================== *)
(** * Dates: the proleptic Gregorian calendar of [datetime] *)
(* ===================================================================== *)

Record date := mkdate { d_year : Z; d_month : Z; d_day : Z }.

(** A naive [datetime]: the spreadsheet reader and [datetime(y, m, d)] never
    attach a time zone, so [tzinfo] is [None] throughout the program. *)
Record datetime := mkdatetime {
  dt_year : Z; dt_month : Z; dt_day : Z;
  dt_hour : Z; dt_minute : Z; dt_second : Z; dt_microsecond : Z }.

Definition DAYS_IN_MONTH : list Z :=
  [-1; 31; 28; 31; 30; 31; 30; 31; 31; 30; 31; 30; 31].
Definition DAYS_BEFORE_MONTH : list Z :=
  [-1; 0; 31; 59; 90; 120; 151; 181; 212; 243; 273; 304; 334].

Definition table (l : list Z) (i : Z) : Z := nth (Z.to_nat i) l 0.

Definition is_leap (y : Z) : bool :=
  (y mod 4 =? 0) && (negb (y mod 100 =? 0) || (y mod 400 =? 0)).

Definition days_before_year (year : Z) : Z :=
  let y := year - 1 in y * 365 + y / 4 - y / 100 + y / 400.

Definition days_in_month (year month : Z) : Z :=
  if (month =? 2) && is_leap year then 29 else table DAYS_IN_MONTH month.

Definition days_before_month (year month : Z) : Z :=
  table DAYS_BEFORE_MONTH month + Z.b2z ((2 <? month) && is_leap year).

Definition ymd2ord (year month day : Z) : Z :=
  days_before_year year + days_before_month year month + day.

Definition DI400Y : Z := days_before_year 401.
Definition DI100Y : Z := days_before_year 101.
Definition DI4Y : Z := days_before_year 5.

Definition ord2ymd (ordinal : Z) : date :=
  let n := ordinal - 1 in
  let n400 := n / DI400Y in
  let n := n mod DI400Y in
  let year := n400 * 400 + 1 in
  let n100 := n / DI100Y in
  let n := n mod DI100Y in
  let n4 := n / DI4Y in
  let n := n mod DI4Y in
  let n1 := n / 365 in
  let n := n mod 365 in
  let year := year + n100 * 100 + n4 * 4 + n1 in
  if (n1 =? 4) || (n100 =? 4) then mkdate (year - 1) 12 31
  else
    let leapyear := (n1 =? 3) && (negb (n4 =? 24) || (n100 =? 3)) in
    let month := Z.shiftr (n + 50) 5 in
    let preceding :=
      table DAYS_BEFORE_MONTH month + Z.b2z ((2 <? month) && leapyear) in
    if n <? preceding then
      let month := month - 1 in
      let preceding :=
        preceding
        - (table DAYS_IN_MONTH month + Z.b2z ((month =? 2) && leapyear)) in
      mkdate year month (n - preceding + 1)
    else mkdate year month (n - preceding + 1).

(** [d.toordinal()] and [d + timedelta(days=k)]. The wall clock is far from
    [date.max], so the overflow of the addition is not modelled. *)
Definition toordinal (d : date) : Z := ymd2ord (d_year d) (d_month d) (d_day d).
Definition date_add_days (d : date) (k : Z) : date := ord2ymd (toordinal d + k).

(** [dt.date()] *)
Definition date_of (dt : datetime) : date :=
  mkdate (dt_year dt) (dt_month dt) (dt_day dt).

(** [dt + timedelta(days=k)]: the calendar date moves, the time of day stays. *)
Definition dt_add_days (dt : datetime) (k : Z) : datetime :=
  let d := date_add_days (date_of dt) k in
  mkdatetime (d_year d) (d_month d) (d_day d)
    (dt_hour dt) (dt_minute dt) (dt_second dt) (dt_microsecond dt).

Definition date_eqb (a b : date) : bool :=
  (d_year a =? d_year b) && (d_month a =? d_month b) && (d_day a =? d_day b).

(** Naive datetimes compare field by field, most significant first. *)
Definition dt_fields (dt : datetime) : list Z :=
  [dt_year dt; dt_month dt; dt_day dt;
   dt_hour dt; dt_minute dt; dt_second dt; dt_microsecond dt].

Fixpoint lex_compare (a b : list Z) : comparison :=
  match a, b with
  | [], [] => Eq
  | [], _ :: _ => Lt
  | _ :: _, [] => Gt
  | x :: a', y :: b' =>
      match x ?= y with
      | Eq => lex_compare a' b'
      | c => c
      end
  end.

Definition dt_compare (a b : datetime) : comparison :=
  lex_compare (dt_fields a) (dt_fields b).

(** [a <= b] and [a == b] on datetimes. *)
Definition dt_leb (a b : datetime) : bool :=
  match dt_compare a b with Gt => false | _ => true end.
Definition dt_eqb (a b : datetime) : bool :=
  match dt_compare a b with Eq => true | _ => false end.

(** [datetime(year, month, day)]: midnight of a calendar date, or
    [ValueError] when the triple is not one. *)
Definition datetime_ymd (year month day : Z) : result datetime :=
  if negb ((1 <=? year) && (year <=? 9999)) then
    Raise (ValueError (lit "year " ++ str_of_int year ++ lit " is out of range"))
  else if negb ((1 <=? month) && (month <=? 12)) then
    Raise (ValueError (lit "month must be in 1..12"))
  else if negb ((1 <=? day) && (day <=? days_in_month year month)) then
    Raise (ValueError (lit "day is out of range for month"))
  else Ok (mkdatetime year month day 0 0 0 0).

(** [due.strftime('%d.%m.%Y')] *)
Definition strftime_dmy (dt : datetime) : str :=
  zero_pad 2 (dt_day dt) ++ lit "." ++ zero_pad 2 (dt_month dt) ++ lit "."
  ++ zero_pad 4 (dt_year dt).

(** [str(dt)]: ISO format with a space between date and time. *)
Definition str_of_datetime (dt : datetime) : str :=
  zero_pad 4 (dt_year dt) ++ lit "-" ++ zero_pad 2 (dt_month dt) ++ lit "-"
  ++ zero_pad 2 (dt_day dt) ++ lit " " ++ zero_pad 2 (dt_hour dt) ++ lit ":"
  ++ zero_pad 2 (dt_minute dt) ++ lit ":" ++ zero_pad 2 (dt_second dt)
  ++ (if dt_microsecond dt =? 0 then []
      else lit "." ++ zero_pad 6 (dt_microsecond dt)).

(* ===================================================================== *)
(** * The runtime outside the repository *)
(* ===================================================================== *)

(** What the program takes from its libraries and its environment:
    - [float], with [float(n)] for an [int] ([None]: [OverflowError]) and
      [str(x)] for a float;
    - [unicode_decimal c]: the value of a code point beyond ASCII when it is
      a Unicode decimal digit (the class [\d] of [re] and the digits that
      [int()] reads are these and the ASCII digits);
    - [from_excel]: openpyxl's conversion of a date serial ([None]: it
      raised); a serial converts to a naive datetime;
    - [TEST_MODE], read once from the process environment. *)
Class Runtime := {
  float : Type;
  float_of_int : Z -> option float;
  str_of_float : float -> str;
  unicode_decimal : char -> option Z;
  from_excel_int : Z -> option datetime;
  from_excel_float : float -> option datetime;
  TEST_MODE : bool
}.

(** A small runtime to run the model on: the floats are the whole numbers,
    only the ASCII digits are decimal, and the serials that convert are
    those of a table with the one serial the sample documents use. *)
Definition sample_runtime (test_mode : bool) : Runtime := {|
  float := Z;
  float_of_int := fun n => Some n;
  str_of_float := fun x => str_of_int x ++ lit ".0";
  unicode_decimal := fun _ => None;
  from_excel_int := fun n =>
    if n =? 45365 then Some (mkdatetime 2024 3 14 0 0 0 0) else None;
  from_excel_float := fun _ => None;
  TEST_MODE := test_mode
|}.

Section Bot.

Context {RT : Runtime}.

(* ===================================================================== *)
(** * Workbooks *)
(* ===================================================================== *)

(** A cell value as the reader yields it with [data_only] and
    [values_only]; [COther] is a value of any other type (a time, a
    duration, a bare date), kept with its [str()]. *)
Inductive cell :=
| CNone
| CBool (b : bool)
| CInt (n : Z)
| CFloat (x : float)
| CStr (s : str)
| CDateTime (d : datetime)
| COther (text : str).

Definition row := list cell.

(** A worksheet is its rows from row 1 (the header) on. *)
Definition worksheet := list row.

(** A workbook: the sheets in order, each under its name. *)
Definition workbook := list (str * worksheet).

(** What a path holds: a workbook, or bytes [load_workbook] rejects. *)
Inductive file :=
| Unreadable (err : str)
| Xlsx (wb : workbook).

Definition filesystem := str -> option file.

Definition write_file (p : str) (f : file) (fs : filesystem) : filesystem :=
  fun q => if str_eqb q p then Some f else fs q.

Definition load_workbook (fs : filesystem) (path : str) : result workbook :=
  match fs path with
  | None => Raise (LoadError (lit "No such file or directory: " ++ path))
  | Some (Unreadable err) => Raise (LoadError err)
  | Some (Xlsx wb) => Ok wb
  end.

Definition is_none (c : cell) : bool :=
  match c with CNone => true | _ => false end.

(** [isinstance(v, (int, float))]; [bool] is a subclass of [int]. *)
Definition is_number (c : cell) : bool :=
  match c with CBool _ | CInt _ | CFloat _ => true | _ => false end.

(** [str(v)] for a cell that is not [None]. *)
Definition str_of_cell (c : cell) : str :=
  match c with
  | CNone => lit "None"
  | CBool true => lit "True"
  | CBool false => lit "False"
  | CInt n => str_of_int n
  | CFloat x => str_of_float x
  | CStr s => s
  | CDateTime d => str_of_datetime d
  | COther text => text
  end.

(** [str(c).strip() if c is not None else ''] *)
Definition cell_text (c : cell) : str :=
  if is_none c then [] else strip (str_of_cell c).

Inductive sheet := ASSESSMENT_SHEET | ASSIGNMENTS_SHEET | INFO_SHEET.

Definition sheet_name (s : sheet) : str :=
  match s with
  | ASSESSMENT_SHEET => lit "Оценивание"
  | ASSIGNMENTS_SHEET => lit "Задания"
  | INFO_SHEET => lit "Инфо"
  end.

Definition SHEET_ALIASES (s : sheet) : list str :=
  match s with
  | ASSESSMENT_SHEET =>
      [sheet_name ASSESSMENT_SHEET; lit "Assessment"; lit "Оценка";
       lit "Оценивание"; lit "Оценки"]
  | ASSIGNMENTS_SHEET =>
      [sheet_name ASSIGNMENTS_SHEET; lit "Assignments"; lit "Задания";
       lit "Дедлайны"]
  | INFO_SHEET => [sheet_name INFO_SHEET; lit "Info"; lit "Информация"]
  end.

(** [x in xs] for strings. *)
Definition str_in (x : str) (xs : list str) : bool := existsb (str_eqb x) xs.

Definition find_sheet_name (wb : workbook) (canonical : sheet) : option str :=
  let aliases := SHEET_ALIASES canonical in
  find (fun name => str_in name aliases) (map fst wb).

(** [wb[name]] for a name taken from [wb.sheetnames]. *)
Definition get_sheet (wb : workbook) (name : str) : worksheet :=
  match find (fun s => str_eqb (fst s) name) wb with
  | Some s => snd s
  | None => []
  end.

(** [ws.iter_rows(min_row=2, values_only=True)] *)
Definition iter_rows_from_2 (ws : worksheet) : list row := tl ws.

(** Opening the sheet of a parser: [load_workbook], [find_sheet_name], the
    [ValueError] when no alias matches, and the data rows. *)
Definition open_sheet (fs : filesystem) (path : str) (canonical : sheet)
  (missing : str) : result (list row) :=
  wb <- load_workbook fs path ;;
  match find_sheet_name wb canonical with
  | None => Raise (ValueError missing)
  | Some name =>
      if truthy name then Ok (iter_rows_from_2 (get_sheet wb name))
      else Raise (ValueError missing)
  end.

(* ===================================================================== *)
(** * parse_weights *)
(* ===================================================================== *)

(** [CourseWeights]: a [dict], which keeps its keys in insertion order. *)
Definition CourseWeights := list (str * float).

(** [d[k] = v] *)
Fixpoint dict_set {V : Type} (k : str) (v : V) (d : list (str * V))
  : list (str * V) :=
  match d with
  | [] => [(k, v)]
  | (k', v') :: d' =>
      if str_eqb k' k then (k', v) :: d' else (k', v') :: dict_set k v d'
  end.

(** [d.get(k)] *)
Fixpoint dict_get {V : Type} (k : str) (d : list (str * V)) : option V :=
  match d with
  | [] => None
  | (k', v') :: d' => if str_eqb k' k then Some v' else dict_get k d'
  end.

(** [float(val)] for a cell that passed [isinstance(val, (int, float))]. *)
Definition float_of_cell (c : cell) : result (option float) :=
  match c with
  | CFloat x => Ok (Some x)
  | CInt n =>
      match float_of_int n with
      | Some x => Ok (Some x)
      | None => Raise (OverflowError (lit "int too large to convert to float"))
      end
  | CBool b =>
      match float_of_int (Z.b2z b) with
      | Some x => Ok (Some x)
      | None => Raise (OverflowError (lit "int too large to convert to float"))
      end
  | _ => Ok None
  end.

(** The body of the loop up to the assignment: the entry a row contributes,
    [None] for a row that is passed over. *)
Definition weight_entry (r : row) : result (option (str * float)) :=
  if is_nil r then Ok None
  else
    c0 <- getitem r 0 ;;
    blank <- (if is_none c0 then c1 <- getitem r 1 ;; Ok (is_none c1)
              else Ok false) ;;
    if blank then Ok None
    else
      let label := cell_text c0 in
      val <- getitem r 1 ;;
      if truthy label && is_number val then
        x <- float_of_cell val ;;
        Ok (option_map (fun x => (label, x)) x)
      else Ok None.

Definition weights_step (r : row) (weights : CourseWeights)
  : result CourseWeights :=
  e <- weight_entry r ;;
  match e with
  | Some (label, x) => Ok (dict_set label x weights)
  | None => Ok weights
  end.

Definition parse_weights (fs : filesystem) (xlsx_path : str)
  : result CourseWeights :=
  rows <- open_sheet fs xlsx_path ASSESSMENT_SHEET
            (lit "Sheet with course weights not found") ;;
  for_each weights_step rows [].

(* ===================================================================== *)
(** * parse_assignments *)
(* ===================================================================== *)

(** [Assignment = Tuple[str, datetime, str]]: title, due, link. *)
Definition Assignment := (str * datetime * str)%type.

Definition a_title (a : Assignment) : str := fst (fst a).
Definition a_due (a : Assignment) : datetime := snd (fst a).
Definition a_link (a : Assignment) : str := snd a.

(** The value of a character of the class [\d]. *)
Definition decimal (c : char) : option Z :=
  if (48 <=? c) && (c <=? 57) then Some (c - 48)
  else if c <? 128 then None
  else unicode_decimal c.

(** [re.match(r"(\d{2})\.(\d{2})\.(\d{4})", s)] followed by [int] on the
    three groups: the match is anchored at the start of [s] only, and what
    follows the tenth character is not looked at. *)
Definition match_date (s : str) : option (Z * Z * Z) :=
  match s with
  | d1 :: d2 :: p1 :: m1 :: m2 :: p2 :: y1 :: y2 :: y3 :: y4 :: _ =>
      match decimal d1, decimal d2, decimal m1, decimal m2,
            decimal y1, decimal y2, decimal y3, decimal y4 with
      | Some a, Some b, Some c, Some d, Some e, Some f, Some g, Some h =>
          if (p1 =? 46) && (p2 =? 46) then
            Some (10 * a + b, 10 * c + d, 1000 * e + 100 * f + 10 * g + h)
          else None
      | _, _, _, _, _, _, _, _ => None
      end
  | _ => None
  end.

(** The conversion of the due cell: [Ok None] where the code says
    [continue], [Raise] where the exception leaves the parser. *)
Definition due_of_cell (due_raw : cell) : result (option datetime) :=
  match due_raw with
  | CDateTime d => Ok (Some d)
  | CBool b => Ok (from_excel_int (Z.b2z b))
  | CInt n => Ok (from_excel_int n)
  | CFloat x => Ok (from_excel_float x)
  | CStr s =>
      match match_date (strip s) with
      | None => Ok None
      | Some (day, month, year) =>
          due <- datetime_ymd year month day ;;
          Ok (Some due)
      end
  | CNone | COther _ => Ok None
  end.

(** The body of the loop up to [results.append]: the assignment a row
    contributes, [None] for a row that is passed over. *)
Definition assignment_of_row (r : row) : result (option Assignment) :=
  if is_nil r then Ok None
  else
    c0 <- getitem r 0 ;;
    blank <- (if is_none c0 then
                c1 <- getitem r 1 ;;
                if is_none c1 then c2 <- getitem r 2 ;; Ok (is_none c2)
                else Ok false
              else Ok false) ;;
    if blank then Ok None
    else
      let title := cell_text c0 in
      due_raw <- getitem r 1 ;;
      c2 <- getitem r 2 ;;
      let link := cell_text c2 in
      if negb (truthy title) then Ok None
      else
        due <- due_of_cell due_raw ;;
        Ok (option_map (fun due => (title, due, link)) due).

Definition assignments_step (r : row) (results : list Assignment)
  : result (list Assignment) :=
  a <- assignment_of_row r ;;
  match a with
  | Some a => Ok (results ++ [a])
  | None => Ok results
  end.

(** [results.sort(key=lambda x: x[1])]: the stable sort on the due
    timestamp, written as insertion from the right. *)
Fixpoint insert_by_due (a : Assignment) (sorted : list Assignment)
  : list Assignment :=
  match sorted with
  | [] => [a]
  | b :: rest =>
      if dt_leb (a_due a) (a_due b) then a :: b :: rest
      else b :: insert_by_due a rest
  end.

Fixpoint sort_by_due (l : list Assignment) : list Assignment :=
  match l with
  | [] => []
  | a :: rest => insert_by_due a (sort_by_due rest)
  end.

(** The rows gathered by the loop, before the sort. *)
Definition collect_assignments (rows : list row) : result (list Assignment) :=
  for_each assignments_step rows [].

Definition parse_assignments (fs : filesystem) (xlsx_path : str)
  : result (list Assignment) :=
  rows <- open_sheet fs xlsx_path ASSIGNMENTS_SHEET
            (lit "Sheet with assignments not found") ;;
  results <- collect_assignments rows ;;
  Ok (sort_by_due results).

(* ===================================================================== *)
(** * format_nearest *)
(* ===================================================================== *)

Definition QUOTE : str := [34].
Definition NEWLINE : str := [10].

Definition NOT_CONFIGURED : str :=
  lit "Нет данных о дедлайнах. Загрузите Excel с листом " ++ QUOTE
  ++ lit "Задания" ++ QUOTE ++ lit ".".

Definition NO_DEADLINES_SOON : str := lit "В ближайшие 2 недели дедлайнов нет.".

(** The bullet of one assignment, as [format_nearest] and [build_message]
    both write it. *)
Definition bullet_line (a : Assignment) : str :=
  let '(title, due, link) := a in
  let date_str := strftime_dmy due in
  let safe_title := html_escape title in
  if truthy link then
    let safe_link := html_escape link in
    lit "• <a href=" ++ QUOTE ++ safe_link ++ QUOTE ++ lit ">" ++ safe_title
    ++ lit "</a> — " ++ date_str
  else lit "• " ++ safe_title ++ lit " — " ++ date_str.

(** [l[:limit]], a negative [limit] counting from the end. *)
Definition slice_to {A : Type} (limit : Z) (l : list A) : list A :=
  if 0 <=? limit then firstn (Z.to_nat limit) l
  else firstn (length l - Z.to_nat (- limit)) l.

(** [[a for a in assignments if now <= a[1] <= horizon]] *)
Definition nearest_window (assignments : list Assignment) (now : datetime)
  : list Assignment :=
  let horizon := dt_add_days now 14 in
  filter (fun a => dt_leb now (a_due a) && dt_leb (a_due a) horizon) assignments.

(** The assignments that are rendered: [window[:limit]]. *)
Definition nearest_shown (assignments : list Assignment) (limit : Z)
  (now : datetime) : list Assignment :=
  slice_to limit (nearest_window assignments now).

Definition DEFAULT_LIMIT : Z := 5.

(** [format_nearest(assignments, limit)] at the clock reading [now]. *)
Definition format_nearest (assignments : list Assignment) (limit : Z)
  (now : datetime) : str :=
  if is_nil assignments then NOT_CONFIGURED
  else
    let lines := map bullet_line (nearest_shown assignments limit now) in
    if is_nil lines then NO_DEADLINES_SOON else join NEWLINE lines.

(* ===================================================================== *)
(** * format_info *)
(* ===================================================================== *)

Definition NO_INFO : str :=
  lit "Нет данных на листе " ++ QUOTE ++ lit "Инфо" ++ QUOTE ++ lit ".".

Definition INFO_GREETING : str :=
  lit "Привет! Ниже приведены ссылки на основные ресурсы курса 👇".

Definition username_keys : list str :=
  [lit "Преподаватель"; lit "Ассистент"; lit "Канал"].

Definition AT : char := 64.

(** [re.sub(r"^@+", '', val)] *)
Definition sub_leading_at (val : str) : str := drop_while (fun c => c =? AT) val.

(** The handle shown for an identity item: [display] of the source. *)
Definition display_handle (val : str) : str :=
  let uname := strip (sub_leading_at val) in
  if truthy uname then AT :: uname else [].

Definition is_ascii_letter (c : char) : bool :=
  ((97 <=? c) && (c <=? 122)) || ((65 <=? c) && (c <=? 90)).

(** The class [[a-zA-Z0-9+.-]]. *)
Definition is_scheme_char (c : char) : bool :=
  is_ascii_letter c || ((48 <=? c) && (c <=? 57))
  || (c =? 43) || (c =? 46) || (c =? 45).

(** [re.match(r"^[a-zA-Z][a-zA-Z0-9+.-]*://", link)]: no character of the
    class is one of [://], so the match is the longest run of the class
    followed by these three. *)
Definition has_scheme (link : str) : bool :=
  match link with
  | [] => false
  | c :: rest =>
      is_ascii_letter c && startswith (drop_while is_scheme_char rest) (lit "://")
  end.

Definition info_line (item : str * str) : str :=
  let '(key, val) := item in
  let safe_key := html_escape key in
  if str_in key username_keys then
    lit "• <b>" ++ safe_key ++ lit "</b>: " ++ html_escape (display_handle val)
  else
    let link := strip val in
    let link :=
      if truthy link && negb (has_scheme link) then lit "https://" ++ link
      else link in
    let safe_link := html_escape link in
    lit "• <a href=" ++ QUOTE ++ safe_link ++ QUOTE ++ lit ">" ++ safe_key
    ++ lit "</a>".

Definition format_info (items : list (str * str)) : str :=
  if is_nil items then NO_INFO
  else join (NEWLINE ++ NEWLINE) (INFO_GREETING :: map info_line items).

(* ===================================================================== *)
(** * The world of the handlers *)
(* ===================================================================== *)

(** [data] of a job: a dict read with [.get], so either key may be absent. *)
Record JobData := mkJobData {
  jd_chat_id : option Z;
  jd_xlsx_path : option str }.

Inductive trigger :=
| Repeating (interval first : Z)
| Daily (at_hour at_minute : Z).

(** A job of the queue; the callback of every job is
    [daily_reminder_callback]. *)
Record Job := mkJob {
  job_name : str;
  job_trigger : trigger;
  job_data : option JobData }.

(** What the handlers read and change: the files under [data/], the jobs of
    the scheduler ([None]: the application has no job queue), the messages
    handed to the chat transport, oldest first, and the [expecting_update]
    key of [user_data]. *)
Record World := mkWorld {
  files : filesystem;
  job_queue : option (list Job);
  outbox : list (Z * str);
  expecting_update : bool }.

Definition send (chat_id : Z) (text : str) (w : World) : World :=
  mkWorld (files w) (job_queue w) (outbox w ++ [(chat_id, text)])
    (expecting_update w).

(** [DATA_DIR / f"{chat_id}.xlsx"] *)
Definition get_chat_file (chat_id : Z) : str :=
  lit "data/" ++ str_of_int chat_id ++ lit ".xlsx".

(* ===================================================================== *)
(** * daily_reminder_callback *)
(* ===================================================================== *)

Definition WEEK_LABEL : str := lit "за неделю".
Definition DAY_LABEL : str := lit "за день".

Definition reminder_header (label : str) : str :=
  lit "🔔 Напоминание <b>" ++ label ++ lit "</b> до дедлайна:".

Definition build_message (label : str) (items : list Assignment) : option str :=
  if is_nil items then None
  else Some (join NEWLINE (reminder_header label :: map bullet_line items)).

(** One turn of the loop that fills the two buckets. *)
Definition bucket_step (week_target day_target : date)
  (buckets : list Assignment * list Assignment) (a : Assignment)
  : list Assignment * list Assignment :=
  let '(week_items, day_items) := buckets in
  let due_date := date_of (a_due a) in
  let week_items :=
    if date_eqb due_date week_target then week_items ++ [a] else week_items in
  let day_items :=
    if date_eqb due_date day_target then day_items ++ [a] else day_items in
  (week_items, day_items).

(** [if text: send_message(chat_id, text)] *)
Definition send_if (chat_id : Z) (text : option str) (w : World) : World :=
  match text with
  | Some t => if truthy t then send chat_id t w else w
  | None => w
  end.

(** The part of the tick after the assignments are read; [today] is the
    local calendar date of the clock. *)
Definition remind (chat_id : Z) (assignments : list Assignment) (today : date)
  (w : World) : World :=
  let week_target := date_add_days today 7 in
  let day_target := date_add_days today 1 in
  let '(week_items, day_items) :=
    fold_left (bucket_step week_target day_target) assignments ([], []) in
  let week_text := build_message WEEK_LABEL week_items in
  let day_text := build_message DAY_LABEL day_items in
  send_if chat_id day_text (send_if chat_id week_text w).

Definition daily_reminder_callback (job : Job) (today : date) (w : World)
  : World :=
  let data :=
    match job_data job with
    | Some d => d
    | None => mkJobData None None
    end in
  match jd_chat_id data, jd_xlsx_path data with
  | Some chat_id, Some xlsx_path =>
      if (chat_id =? 0) || negb (truthy xlsx_path) then w
      else
        match parse_assignments (files w) xlsx_path with
        | Raise _ => w
        | Ok assignments => remind chat_id assignments today w
        end
  | _, _ => w
  end.

(* ===================================================================== *)
(** * schedule_chat_reminders *)
(* ===================================================================== *)

Definition reminder_job (chat_id : Z) (xlsx_path : str) : Job :=
  mkJob (lit "daily:" ++ str_of_int chat_id)
    (if TEST_MODE then Repeating 15 0 else Daily 10 0)
    (Some (mkJobData (Some chat_id) (Some xlsx_path))).

Definition schedule_chat_reminders (chat_id : Z) (xlsx_path : str) (w : World)
  : World :=
  match job_queue w with
  | None => w
  | Some _ =>
      (* jq.scheduler.remove_all_jobs() *)
      let jobs : list Job := [] in
      (* jq.run_repeating(...) or jq.run_daily(...) *)
      mkWorld (files w) (Some (jobs ++ [reminder_job chat_id xlsx_path]))
        (outbox w) (expecting_update w)
  end.

(** The jobs registered under the name of a chat. *)
Definition jobs_of_chat (chat_id : Z) (w : World) : list Job :=
  match job_queue w with
  | None => []
  | Some jobs =>
      filter (fun j => str_eqb (job_name j) (lit "daily:" ++ str_of_int chat_id))
        jobs
  end.

(* ===================================================================== *)
(** * handle_document *)
(* ===================================================================== *)

(** A document or another attachment of a message: its [file_name], if it
    has one, and the bytes that [download_to_drive] writes. *)
Record Attachment := mkAttachment {
  file_name : option str;
  content : file }.

(** [message.effective_attachment] *)
Inductive attachments :=
| NoAttachment
| OneAttachment (a : Attachment)
| AttachmentList (l : list Attachment).

Record Message := mkMessage {
  document : option Attachment;
  effective_attachment : attachments }.

Record Update := mkUpdate {
  effective_chat_id : Z;
  message : option Message }.

Definition is_excel_name (name : str) : bool :=
  endswith name (lit ".xlsx") || endswith name (lit ".xlsm").

(** The fallback search through a list of attachments. *)
Definition find_excel_attachment (l : list Attachment) : option Attachment :=
  find (fun att =>
          match file_name att with
          | Some n => truthy n && is_excel_name (lower n)
          | None => false
          end) l.

Definition pick_document (m : Message) : option Attachment :=
  match document m with
  | Some doc => Some doc
  | None =>
      match effective_attachment m with
      | AttachmentList l => find_excel_attachment l
      | _ => None
      end
  end.

Definition MSG_SEND_EXCEL : str :=
  lit "Пожалуйста, отправьте Excel-файл (.xlsx или .xlsm).".
Definition MSG_UPDATING : str := lit "Обновляю информацию из нового файла...".
Definition MSG_RECEIVING : str := lit "Получаю файл...".
Definition MSG_SAVED_BUT_UNREADABLE (exc : exn) : str :=
  lit "Файл сохранён, но не удалось его прочитать полностью. "
  ++ lit "Проверьте структуру листов. Ошибка: " ++ exn_str exc.
Definition MSG_UPDATED : str :=
  lit "Информация успешно обновлена! Используйте /help для сводки.".
Definition MSG_SAVED : str :=
  lit "Файл сохранён для этого чата. Используйте /help для сводки.".
Definition MSG_TEST_REMINDERS : str :=
  lit "Тестовые напоминания активированы (каждые 15 секунд).".
Definition MSG_DAILY_REMINDERS : str :=
  lit "Ежедневные напоминания запланированы на 10:00.".

(** The validation of an upload: both parsers are run for their exceptions
    only. *)
Definition validate (fs : filesystem) (path : str) : result unit :=
  _ <- parse_weights fs path ;;
  _ <- parse_assignments fs path ;;
  Ok tt.

Definition handle_document (update : Update) (w : World) : World :=
  let chat_id := effective_chat_id update in
  let is_update_request := expecting_update w in
  match message update with
  | None => w
  | Some m =>
      match pick_document m with
      | None => w
      | Some doc =>
          let name :=
            lower (match file_name doc with Some n => n | None => [] end) in
          if negb (is_excel_name name) then send chat_id MSG_SEND_EXCEL w
          else
            let w :=
              send chat_id
                (if is_update_request then MSG_UPDATING else MSG_RECEIVING) w in
            let new_path := get_chat_file chat_id in
            let w :=
              mkWorld (write_file new_path (content doc) (files w))
                (job_queue w) (outbox w) (expecting_update w) in
            match validate (files w) new_path with
            | Raise exc => send chat_id (MSG_SAVED_BUT_UNREADABLE exc) w
            | Ok _ =>
                let w := mkWorld (files w) (job_queue w) (outbox w) false in
                let w :=
                  send chat_id
                    (if is_update_request then MSG_UPDATED else MSG_SAVED) w in
                let w := schedule_chat_reminders chat_id new_path w in
                send chat_id
                  (if TEST_MODE then MSG_TEST_REMINDERS else MSG_DAILY_REMINDERS)
                  w
            end
      end
  end.

(* ===================================================================== *)
(** * Vocabulary of the statements *)
(* ===================================================================== *)

(** The elements that a list of optional contributions holds, in order. *)
Definition present {E : Type} (opts : list (option E)) : list E :=
  flat_map (fun o => match o with Some e => [e] | None => [] end) opts.

(** The assignments [d[k] = v] of a list of entries, first to last. *)
Definition store_all {V : Type} (entries : list (str * V)) (d : list (str * V))
  : list (str * V) :=
  fold_left (fun s e => dict_set (fst e) (snd e) s) entries d.

(** [a] is due no later than [b]. *)
Definition due_le (a b : Assignment) : Prop :=
  dt_leb (a_due a) (a_due b) = true.

(** An assignment whose due calendar date is [target]. *)
Definition due_on (target : date) (a : Assignment) : bool :=
  date_eqb (date_of (a_due a)) target.

(** The text [build_message] gives for a bucket that is not empty. *)
Definition reminder_text (label : str) (items : list Assignment) : str :=
  join NEWLINE (reminder_header label :: map bullet_line items).

(* ===================================================================== *)
(** * Sample documents *)
(* ===================================================================== *)

(** A disk that holds one file. *)
Definition single_file (path : str) (f : file) : filesystem :=
  write_file path f (fun _ => None).

Definition at_midnight (year month day : Z) : datetime :=
  mkdatetime year month day 0 0 0 0.

Definition assessment_rows : worksheet :=
  [ [CStr (lit "Component"); CStr (lit "Weight")];
    [CStr (lit "HW"); CInt 1];
    [CStr (lit "Exam"); CInt 3];
    [CStr (lit " HW "); CInt 2];
    [CStr (lit "Quiz"); CStr (lit "n/a")];
    [CNone; CNone] ].

Definition assignment_rows : worksheet :=
  [ [CStr (lit "Title"); CStr (lit "Due"); CStr (lit "Link")];
    [CStr (lit "HW2"); CStr (lit "15.03.2024"); CStr (lit "https://hse.example/hw2")];
    [CStr (lit "HW1"); CDateTime (mkdatetime 2024 3 8 23 59 0 0); CNone];
    [CStr (lit "Quiz"); CStr (lit " 08.03.2024 "); CNone];
    [CStr (lit "Essay"); CDateTime (mkdatetime 2024 3 8 23 59 0 0); CNone];
    [CStr (lit "  "); CStr (lit "09.03.2024"); CNone];
    [CStr (lit "Talk"); CStr (lit "soon"); CNone];
    [CNone; CNone; CNone];
    [CStr (lit "Lab"); CInt 45365; CNone] ].

(** A course document with both sheets. *)
Definition course_book : workbook :=
  [ (lit "Оценивание", assessment_rows); (lit "Задания", assignment_rows) ].

(** A document without the sheet of assignments. *)
Definition weights_only_book : workbook :=
  [ (lit "Оценивание", assessment_rows) ].

(** A sheet where one due string has the shape of a date and names none. *)
Definition invalid_date_book : workbook :=
  [ (lit "Задания",
     [ [CStr (lit "Title"); CStr (lit "Due"); CStr (lit "Link")];
       [CStr (lit "HW1"); CStr (lit "01.03.2024"); CNone];
       [CStr (lit "HW2"); CStr (lit "31.02.2024"); CNone] ]) ].

(** A sheet where text follows the date in the due string. *)
Definition trailing_text_book : workbook :=
  [ (lit "Задания",
     [ [CStr (lit "Title"); CStr (lit "Due"); CStr (lit "Link")];
       [CStr (lit "HW1"); CStr (lit "01.02.2024abc"); CNone] ]) ].

(** A world with no file, an empty job queue and nothing sent. *)
Definition idle_world : World := mkWorld (fun _ => None) (Some []) [] false.

(** The upload of [wb] under the name grades.xlsx in chat [chat_id]. *)
Definition upload (chat_id : Z) (wb : workbook) : Update :=
  mkUpdate chat_id
    (Some (mkMessage
             (Some (mkAttachment (Some (lit "grades.xlsx")) (Xlsx wb)))
             NoAttachment)).

(** The disk after the course document was stored for chat 1. *)
Definition course_files : filesystem :=
  single_file (get_chat_file 1) (Xlsx course_book).

(** The assignments of the course document, as [parse_assignments] returns
    them. *)
Definition course_assignments : list Assignment :=
  [ (lit "Quiz", at_midnight 2024 3 8, []);
    (lit "HW1", mkdatetime 2024 3 8 23 59 0 0, []);
    (lit "Essay", mkdatetime 2024 3 8 23 59 0 0, []);
    (lit "Lab", at_midnight 2024 3 14, []);
    (lit "HW2", at_midnight 2024 3 15, lit "https://hse.example/hw2") ].

End Bot.

(* ===================================================================== *)
(** * Sample worlds, on the sample runtime with [TEST_MODE] off *)
(* ===================================================================== *)

Definition RT0 : Runtime := sample_runtime false.

Definition job_1 : Job := reminder_job (RT := RT0) 1 (get_chat_file 1).
Definition job_2 : Job := reminder_job (RT := RT0) 2 (get_chat_file 2).

(** The course document is on disk and the job of one chat is registered. *)
Definition world_chat_1 : @World RT0 :=
  mkWorld course_files (Some [job_1]) [] false.
Definition world_chat_2 : @World RT0 :=
  mkWorld course_files (Some [job_2]) [] false.

(** Chat 7 sends a workbook that lacks the sheet of assignments, with no
    file on disk and no job registered. *)
Definition failing_upload : @Update RT0 := upload 7 weights_only_book.
Definition world_idle : @World RT0 := idle_world.
Definition job_7 : Job := reminder_job (RT := RT0) 7 (get_chat_file 7).

(* ===================================================================== *)
(** * parse_info, format_formula, the commands and the startup hook *)
(* ===================================================================== *)

Section Commands.

Context {RT : Runtime}.

(** Two more functions of the runtime: [format_g w] is [f"{w:g}"], and
    [int_of_str s] is [int(s)] ([None]: [ValueError]). *)
Variable format_g : float -> str.
Variable int_of_str : str -> option Z.

Definition INFO_SHEET_MISSING : str :=
  lit "Лист с информацией (" ++ QUOTE ++ lit "Инфо" ++ QUOTE
  ++ lit ") не найден".

(** The body of the loop of [parse_info] up to [rows.append]. *)
Definition info_entry (r : row) : result (option (str * str)) :=
  if is_nil r then Ok None
  else
    c0 <- getitem r 0 ;;
    blank <- (if is_none c0 then c1 <- getitem r 1 ;; Ok (is_none c1)
              else Ok false) ;;
    if blank then Ok None
    else
      let key := cell_text c0 in
      c1 <- getitem r 1 ;;
      let val := cell_text c1 in
      if truthy key then Ok (Some (key, val)) else Ok None.

Definition info_step (r : row) (rows : list (str * str))
  : result (list (str * str)) :=
  e <- info_entry r ;;
  match e with
  | Some e => Ok (rows ++ [e])
  | None => Ok rows
  end.

Definition parse_info (fs : filesystem) (xlsx_path : str)
  : result (list (str * str)) :=
  rows <- open_sheet fs xlsx_path INFO_SHEET INFO_SHEET_MISSING ;;
  for_each info_step rows [].

Definition FORMULA_NOT_SET : str :=
  lit "Формула пока не задана. Загрузите Excel с листом " ++ QUOTE
  ++ lit "Оценивание" ++ QUOTE ++ lit ".".

(** [f"{name}×{w:g}"] *)
Definition formula_part (e : str * float) : str :=
  fst e ++ lit "×" ++ format_g (snd e).

Definition format_formula (weights : CourseWeights) : str :=
  if is_nil weights then FORMULA_NOT_SET
  else lit "Итог = " ++ join (lit " + ") (map formula_part weights).

(** [xlsx_path.exists()] *)
Definition exists_file (fs : filesystem) (path : str) : bool :=
  match fs path with Some _ => true | None => false end.




(** Both parsers of [help_cmd], inside its [try]. *)
Definition read_course (fs : filesystem) (path : str)
  : result (CourseWeights * list Assignment) :=
  weights <- parse_weights fs path ;;
  assignments <- parse_assignments fs path ;;
  Ok (weights, assignments).


Definition MSG_UPLOAD_INFO_FIRST : str :=
  lit "Сначала загрузите Excel с листом " ++ QUOTE ++ lit "Инфо" ++ QUOTE
  ++ lit ". Отправьте файл прямо сюда.".

Definition MSG_CANNOT_READ_INFO (exc : exn) : str :=
  lit "Не удалось прочитать лист " ++ QUOTE ++ lit "Инфо" ++ QUOTE
  ++ lit ". Загрузите корректный Excel. " ++ lit "Ошибка: " ++ exn_str exc.

Definition info_cmd (update : Update) (w : World) : World :=
  let chat_id := effective_chat_id update in
  let xlsx_path := get_chat_file chat_id in
  if negb (exists_file (files w) xlsx_path) then
    send chat_id MSG_UPLOAD_INFO_FIRST w
  else
    match parse_info (files w) xlsx_path with
    | Raise exc => send chat_id (MSG_CANNOT_READ_INFO exc) w
    | Ok items => send chat_id (format_info items) w
    end.

(** The one chat that may use [/update]. *)
Definition ADMIN_CHAT : Z := 669636800.

Definition MSG_NO_RIGHTS : str :=
  lit "У вас нет прав для использования этой команды. "
  ++ lit "Доступ ограничен для администратора бота.".

Definition MSG_SEND_NEW_FILE : str :=
  lit "Отправьте новый Excel-файл для обновления информации. "
  ++ lit "Файл должен содержать листы " ++ QUOTE ++ lit "Оценивание" ++ QUOTE
  ++ lit ", " ++ QUOTE ++ lit "Задания" ++ QUOTE ++ lit " и " ++ QUOTE
  ++ lit "Инфо" ++ QUOTE ++ lit ".".

Definition update_cmd (update : Update) (w : World) : World :=
  let chat_id := effective_chat_id update in
  if negb (chat_id =? ADMIN_CHAT) then send chat_id MSG_NO_RIGHTS w
  else
    send chat_id MSG_SEND_NEW_FILE
      (mkWorld (files w) (job_queue w) (outbox w) true).

(** The path [DATA_DIR / name] of a file that the glob yields, from the
    stem of its name. *)
Definition data_path (stem : str) : str := lit "data/" ++ stem ++ lit ".xlsx".

(** One turn of the loop of [startup], on the stem of a globbed file. *)
Definition startup_step (w : World) (stem : str) : World :=
  match int_of_str stem with
  | None => w
  | Some chat_id => schedule_chat_reminders chat_id (data_path stem) w
  end.

(** [startup]: [stems] are the stems of the files [DATA_DIR.glob('*.xlsx')]
    yields, in the order it yields them. *)
Definition startup (stems : list str) (w : World) : World :=
  fold_left startup_step stems w.

(* ===================================================================== *)
(** * More vocabulary of the statements *)
(* ===================================================================== *)

(** The address a link item points to: [link] of [format_info]. *)
Definition link_target (val : str) : str :=
  let link := strip val in
  if truthy link && negb (has_scheme link) then lit "https://" ++ link
  else link.

(** A string without whitespace at either end. *)
Definition trimmed (s : str) : Prop := strip s = s.

(** The last stem of a listing that [int] reads, with its chat. *)
Definition last_chat (stems : list str) : option (Z * str) :=
  fold_left
    (fun acc stem =>
       match int_of_str stem with
       | Some chat_id => Some (chat_id, stem)
       | None => acc
       end) stems None.

(** A command or an upload sent from a chat, with nothing attached. *)
Definition command_from (chat_id : Z) : Update :=
  mkUpdate chat_id (Some (mkMessage None NoAttachment)).

Definition info_rows : worksheet :=
  [ [CStr (lit "Key"); CStr (lit "Value")];
    [CStr (lit " Чат "); CStr (lit "t.me/hse_course ")];
    [CStr (lit "Ассистент"); CStr (lit "@@bob")];
    [CNone; CStr (lit "orphan")];
    [CStr (lit "Wiki"); CStr (lit "https://wiki.hse.example")];
    [CStr (lit "Чат"); CNone] ].

(** The course document with its sheet of links. *)
Definition full_book : workbook := course_book ++ [(lit "Инфо", info_rows)].

(** A sheet of assignments that has no third column. *)
Definition two_column_book : workbook :=
  [ (lit "Задания",
     [ [CStr (lit "Title"); CStr (lit "Due")];
       [CStr (lit "HW1"); CStr (lit "01.03.2024")] ]) ].

(** A message whose attachments are a list: a photo without a name, then
    two named files. *)
Definition album_message : Message :=
  mkMessage None
    (AttachmentList
       [ mkAttachment None (Unreadable (lit "photo"));
         mkAttachment (Some (lit "Plan.XLSM")) (Xlsx course_book);
         mkAttachment (Some (lit "old.xlsx")) (Xlsx weights_only_book) ]).

(** The document and the message of [upload]. *)
Definition excel_doc (wb : workbook) : Attachment :=
  mkAttachment (Some (lit "grades.xlsx")) (Xlsx wb).
Definition excel_message (wb : workbook) : Message :=
  mkMessage (Some (excel_doc wb)) NoAttachment.

End Commands.

(** The strings of a list in the order in which each is first seen. *)
Definition first_seen (l : list str) : list str :=
  fold_left (fun seen k => if str_in k seen then seen else seen ++ [k]) l [].

(** What [float] raises on an [int] beyond its range. *)
Definition overflow_error : exn :=
  OverflowError (lit "int too large to convert to float").

(** What indexing a tuple past its end raises. *)
Definition index_error : exn := IndexError (lit "tuple index out of range").

(** A string that does not begin with whitespace. *)
Definition clean_head (s : str) : Prop :=
  match s with [] => True | c :: _ => isspace c = false end.




(** A reading of [int] and of [{:g}] for the sample runtime: a run of ASCII
    digits, and a whole number printed without a fraction. *)
Definition sample_int (s : str) : option Z :=
  if truthy s && forallb (fun c => (48 <=? c) && (c <=? 57)) s then
    Some (fold_left (fun acc c => 10 * acc + (c - 48)) s 0)
  else None.


(** The disk after chat 1 has stored the course document with its links. *)
Definition full_files : @filesystem RT0 :=
  single_file (get_chat_file 1) (Xlsx full_book).

(** The uploads of the samples: the full document from chat 1, and the
    course document from the administrator chat. *)
Definition full_upload : @Update RT0 := upload 1 full_book.
Definition admin_upload : @Update RT0 := upload ADMIN_CHAT course_book.

(** The stems of a listing of the data directory. *)
Definition sample_stems : list str := [lit "2"; lit "notes"; lit "1"; lit "x7"].

(* ===================================================================== *)
(** * The library functions on known values *)
(* ===================================================================== *)

Example lit_ascii : lit "a.b" = [97; 46; 98].
Proof. reflexivity. Qed.

Example lit_cyrillic_bullet : lit "• Я" = [8226; 32; 1071].
Proof. reflexivity. Qed.

Example lit_bell : lit "🔔" = [128276].
Proof. reflexivity. Qed.

Example strip_spaces : strip (lit "  HW 1 ") = lit "HW 1".
Proof. reflexivity. Qed.

Example str_of_int_negative : str_of_int (-1002003) = lit "-1002003".
Proof. reflexivity. Qed.

Example zero_pad_day : zero_pad 2 7 = lit "07".
Proof. reflexivity. Qed.

Example ordinal_of_first_day : ymd2ord 1 1 1 = 1.
Proof. reflexivity. Qed.

Example ordinal_of_4_november_2024 : ymd2ord 2024 11 4 = 739194.
Proof. reflexivity. Qed.

Example date_of_ordinal_739194 : ord2ymd 739194 = mkdate 2024 11 4.
Proof. reflexivity. Qed.

Example leap_day_round_trip : ord2ymd (ymd2ord 2000 2 29) = mkdate 2000 2 29.
Proof. reflexivity. Qed.

Example last_day_round_trip : ord2ymd (ymd2ord 2023 12 31) = mkdate 2023 12 31.
Proof. reflexivity. Qed.

Example week_over_february :
  date_add_days (mkdate 2024 2 28) 7 = mkdate 2024 3 6.
Proof. reflexivity. Qed.

Example day_over_new_year :
  date_add_days (mkdate 2023 12 31) 1 = mkdate 2024 1 1.
Proof. reflexivity. Qed.

Example no_30_february :
  datetime_ymd 2024 2 30
  = Raise (ValueError (lit "day is out of range for month")).
Proof. reflexivity. Qed.

Example strftime_pads :
  strftime_dmy (mkdatetime 2024 2 1 0 0 0 0) = lit "01.02.2024".
Proof. reflexivity. Qed.

Example get_chat_file_of_chat :
  get_chat_file 669636800 = lit "data/669636800.xlsx".
Proof. reflexivity. Qed.

Example scheme_is_kept :
  has_scheme (lit "https://example.com/x") = true
  /\ has_scheme (lit "example.com/x") = false.
Proof. split; reflexivity. Qed.

(* ===================================================================== *)
(** * Properties *)
(* ===================================================================== *)

Section BotFacts.

Context {RT : Runtime}.

(** ** Strings, results and loops *)

Lemma str_eqb_eq (a b : str) : str_eqb a b = true <-> a = b.
Proof.
  revert b. induction a as [|x a IH]; intros [|y b]; simpl; split;
    try congruence; try reflexivity.
  - intros H. apply andb_true_iff in H. destruct H as [Hxy Hab].
    apply Z.eqb_eq in Hxy. apply IH in Hab. congruence.
  - intros H. injection H as -> ->. rewrite Z.eqb_refl. simpl. now apply IH.
Qed.

Lemma str_eqb_refl (a : str) : str_eqb a a = true.
Proof. now apply str_eqb_eq. Qed.

Lemma str_eqb_neq (a b : str) : str_eqb a b = false <-> a <> b.
Proof.
  split.
  - intros H E. apply str_eqb_eq in E. congruence.
  - intros H. destruct (str_eqb a b) eqn:E; [|reflexivity].
    apply str_eqb_eq in E. contradiction.
Qed.

Lemma str_eqb_sym (a b : str) : str_eqb a b = str_eqb b a.
Proof.
  destruct (str_eqb a b) eqn:E.
  - apply str_eqb_eq in E. subst. now rewrite str_eqb_refl.
  - symmetry. apply str_eqb_neq. apply str_eqb_neq in E. congruence.
Qed.

Lemma bind_ok {A B : Type} (r : result A) (k : A -> result B) (b : B) :
  bind r k = Ok b <-> exists a, r = Ok a /\ k a = Ok b.
Proof.
  destruct r as [a|e]; simpl; split.
  - intros H. now exists a.
  - intros [a' [Ha Hk]]. now injection Ha as ->.
  - discriminate.
  - intros [a' [Ha _]]. discriminate.
Qed.

(** A loop whose body classifies the row and then updates the state comes
    back normally exactly when every row classifies, and its state is then
    the updates of the contributing rows, in row order. *)
Lemma for_each_classified {A E S : Type}
  (classify : A -> result (option E)) (update : E -> S -> S)
  (step : A -> S -> result S)
  (Hstep : forall x s,
      step x s = (e <- classify x ;;
                  Ok (match e with Some e => update e s | None => s end)))
  (xs : list A) (s s' : S) :
  for_each step xs s = Ok s' <->
  exists opts, Forall2 (fun x o => classify x = Ok o) xs opts
               /\ s' = fold_left (fun s e => update e s) (present opts) s.
Proof.
  revert s. induction xs as [|x xs IH]; intros s; simpl.
  - split.
    + intros H. injection H as <-. exists []. split; [constructor|reflexivity].
    + intros [opts [HF ->]]. inversion HF; subst. reflexivity.
  - rewrite Hstep. split.
    + intros H. apply bind_ok in H. destruct H as [s1 [H1 H2]].
      apply bind_ok in H1. destruct H1 as [o [Ho Hs1]]. injection Hs1 as <-.
      apply IH in H2. destruct H2 as [opts [HF ->]].
      exists (o :: opts). split; [now constructor|].
      destruct o; reflexivity.
    + intros [opts [HF ->]]. inversion HF as [|x' o xs' opts' Ho HF']; subst.
      rewrite Ho. simpl. apply IH. exists opts'. split; [assumption|].
      destruct o; reflexivity.
Qed.

Lemma weights_step_classified (r : row) (weights : CourseWeights) :
  weights_step r weights =
  (e <- weight_entry r ;;
   Ok (match e with
       | Some e => dict_set (fst e) (snd e) weights
       | None => weights
       end)).
Proof.
  unfold weights_step. destruct (weight_entry r) as [[[l x]|]|]; reflexivity.
Qed.

Lemma assignments_step_classified (r : row) (results : list Assignment) :
  assignments_step r results =
  (a <- assignment_of_row r ;;
   Ok (match a with Some a => results ++ [a] | None => results end)).
Proof.
  unfold assignments_step. destruct (assignment_of_row r) as [[a|]|]; reflexivity.
Qed.

Lemma fold_left_snoc {E : Type} (es : list E) (acc : list E) :
  fold_left (fun s e => s ++ [e]) es acc = acc ++ es.
Proof.
  revert acc. induction es as [|e es IH]; intros acc; simpl.
  - now rewrite app_nil_r.
  - rewrite IH. now rewrite <- app_assoc.
Qed.

(** The loop of [parse_assignments] gathers the rows that classify, in row
    order. *)
Lemma collect_assignments_ok (rows : list row) (collected : list Assignment) :
  collect_assignments rows = Ok collected <->
  exists opts, Forall2 (fun r o => assignment_of_row r = Ok o) rows opts
               /\ collected = present opts.
Proof.
  unfold collect_assignments.
  rewrite (for_each_classified assignment_of_row (fun a s => s ++ [a])
             assignments_step assignments_step_classified).
  split; intros [opts [HF ->]]; exists opts; (split; [assumption|]);
    now rewrite fold_left_snoc.
Qed.

(** ** Dictionaries *)

Lemma dict_set_keys_in {V : Type} (k k0 : str) (v : V) (d : list (str * V)) :
  In k0 (map fst (dict_set k v d)) <-> k0 = k \/ In k0 (map fst d).
Proof.
  induction d as [|[k' v'] d IH]; simpl.
  - intuition congruence.
  - destruct (str_eqb k' k) eqn:E; simpl.
    + apply str_eqb_eq in E. subst. intuition congruence.
    + rewrite IH. intuition congruence.
Qed.

Lemma dict_set_NoDup {V : Type} (k : str) (v : V) (d : list (str * V)) :
  NoDup (map fst d) -> NoDup (map fst (dict_set k v d)).
Proof.
  induction d as [|[k' v'] d IH]; simpl; intros H.
  - constructor; [intros []|constructor].
  - inversion H as [|? ? Hnotin Hnd]; subst.
    destruct (str_eqb k' k) eqn:E; simpl.
    + now constructor.
    + constructor; [|now apply IH].
      rewrite dict_set_keys_in. intros [->|Hin]; [|contradiction].
      rewrite str_eqb_refl in E. discriminate.
Qed.

Lemma dict_get_set_same {V : Type} (k : str) (v : V) (d : list (str * V)) :
  dict_get k (dict_set k v d) = Some v.
Proof.
  induction d as [|[k' v'] d IH]; simpl.
  - now rewrite str_eqb_refl.
  - destruct (str_eqb k' k) eqn:E; simpl; rewrite E; [reflexivity|assumption].
Qed.

Lemma dict_get_set_other {V : Type} (k k0 : str) (v : V) (d : list (str * V)) :
  k0 <> k -> dict_get k0 (dict_set k v d) = dict_get k0 d.
Proof.
  intros Hne. induction d as [|[k' v'] d IH]; simpl.
  - destruct (str_eqb k k0) eqn:E; [|reflexivity].
    apply str_eqb_eq in E. congruence.
  - destruct (str_eqb k' k) eqn:E; simpl.
    + apply str_eqb_eq in E. subst k'.
      destruct (str_eqb k k0) eqn:E'; [|reflexivity].
      apply str_eqb_eq in E'. congruence.
    + destruct (str_eqb k' k0); [reflexivity|assumption].
Qed.

Lemma store_all_NoDup {V : Type} (entries : list (str * V)) (d : list (str * V)) :
  NoDup (map fst d) -> NoDup (map fst (store_all entries d)).
Proof.
  revert d. induction entries as [|[k v] es IH]; intros d H; simpl; [assumption|].
  apply IH. now apply dict_set_NoDup.
Qed.

Lemma store_all_untouched {V : Type} (entries : list (str * V))
  (d : list (str * V)) (k : str) :
  ~ In k (map fst entries) -> dict_get k (store_all entries d) = dict_get k d.
Proof.
  revert d. induction entries as [|[k' v] es IH]; intros d H; simpl; [reflexivity|].
  simpl in H.
  change (store_all ((k', v) :: es) d) with (store_all es (dict_set k' v d)).
  rewrite IH by tauto.
  apply dict_get_set_other. intros ->. tauto.
Qed.

Lemma store_all_last_wins {V : Type} (pre post : list (str * V))
  (d : list (str * V)) (k : str) (v : V) :
  ~ In k (map fst post) ->
  dict_get k (store_all (pre ++ (k, v) :: post) d) = Some v.
Proof.
  intros H. unfold store_all. rewrite fold_left_app.
  change (dict_get k (store_all post (dict_set k v (store_all pre d))) = Some v).
  rewrite store_all_untouched by assumption.
  apply dict_get_set_same.
Qed.

Lemma store_all_keys {V : Type} (entries : list (str * V)) (d : list (str * V))
  (k : str) :
  In k (map fst (store_all entries d)) <-> In k (map fst entries) \/ In k (map fst d).
Proof.
  revert d. induction entries as [|[k' v] es IH]; intros d; simpl.
  - tauto.
  - change (store_all ((k', v) :: es) d) with (store_all es (dict_set k' v d)).
    rewrite IH. rewrite dict_set_keys_in. intuition congruence.
Qed.

(** ** The order of datetimes *)

Lemma lex_compare_refl (a : list Z) : lex_compare a a = Eq.
Proof.
  induction a as [|x a IH]; simpl; [reflexivity|].
  now rewrite Z.compare_refl.
Qed.

Lemma lex_compare_eq (a b : list Z) : lex_compare a b = Eq -> a = b.
Proof.
  revert b. induction a as [|x a IH]; intros [|y b]; simpl; try congruence.
  destruct (x ?= y) eqn:E; try discriminate.
  intros H. apply Z.compare_eq in E. apply IH in H. congruence.
Qed.

Lemma lex_compare_antisym (a b : list Z) :
  lex_compare b a = CompOpp (lex_compare a b).
Proof.
  revert b. induction a as [|x a IH]; intros [|y b]; simpl; try reflexivity.
  rewrite (Z.compare_antisym x y).
  destruct (x ?= y); simpl; [apply IH|reflexivity|reflexivity].
Qed.

Lemma lex_compare_le_trans (a b c : list Z) :
  lex_compare a b <> Gt -> lex_compare b c <> Gt -> lex_compare a c <> Gt.
Proof.
  revert b c. induction a as [|x a IH]; intros [|y b] [|z c]; simpl;
    try congruence.
  destruct (Z.compare_spec x y) as [Hxy|Hxy|Hxy];
    destruct (Z.compare_spec y z) as [Hyz|Hyz|Hyz];
    destruct (Z.compare_spec x z) as [Hxz|Hxz|Hxz];
    try congruence; try lia; intros; eauto.
Qed.

Lemma dt_leb_total (a b : datetime) : dt_leb a b = false -> dt_leb b a = true.
Proof.
  unfold dt_leb, dt_compare. rewrite (lex_compare_antisym (dt_fields a)).
  destruct (lex_compare (dt_fields a) (dt_fields b)); simpl; intros H;
    (discriminate || reflexivity).
Qed.

Lemma dt_leb_trans (a b c : datetime) :
  dt_leb a b = true -> dt_leb b c = true -> dt_leb a c = true.
Proof.
  unfold dt_leb, dt_compare. intros Hab Hbc.
  pose proof (lex_compare_le_trans (dt_fields a) (dt_fields b) (dt_fields c)) as T.
  destruct (lex_compare (dt_fields a) (dt_fields b)); try discriminate;
    destruct (lex_compare (dt_fields b) (dt_fields c)); try discriminate;
    destruct (lex_compare (dt_fields a) (dt_fields c)); try reflexivity;
    exfalso; apply T; congruence.
Qed.

Lemma dt_eqb_eq (a b : datetime) : dt_eqb a b = true <-> a = b.
Proof.
  unfold dt_eqb, dt_compare. split.
  - intros H. destruct (lex_compare (dt_fields a) (dt_fields b)) eqn:E;
      try discriminate.
    apply lex_compare_eq in E. destruct a, b. unfold dt_fields in E.
    simpl in E. injection E as ? ? ? ? ? ? ?. subst. reflexivity.
  - intros ->. now rewrite lex_compare_refl.
Qed.

Lemma dt_leb_of_eq (a b : datetime) : a = b -> dt_leb a b = true.
Proof.
  intros ->. unfold dt_leb, dt_compare. now rewrite lex_compare_refl.
Qed.

(** ** The stable sort *)

Lemma insert_by_due_perm (a : Assignment) (l : list Assignment) :
  Permutation (insert_by_due a l) (a :: l).
Proof.
  induction l as [|b l IH]; simpl; [reflexivity|].
  destruct (dt_leb (a_due a) (a_due b)); [reflexivity|].
  rewrite IH. apply perm_swap.
Qed.

Lemma sort_by_due_perm (l : list Assignment) : Permutation (sort_by_due l) l.
Proof.
  induction l as [|a l IH]; simpl; [reflexivity|].
  rewrite insert_by_due_perm. now constructor.
Qed.

Lemma insert_by_due_sorted (a : Assignment) (l : list Assignment) :
  Sorted due_le l -> Sorted due_le (insert_by_due a l).
Proof.
  induction l as [|b l IH]; simpl; intros Hs.
  - repeat constructor.
  - destruct (dt_leb (a_due a) (a_due b)) eqn:E.
    + constructor; [assumption|]. now constructor.
    + inversion Hs as [|? ? Hs' Hhd]; subst.
      constructor; [now apply IH|].
      destruct l as [|c l]; simpl.
      * constructor. now apply dt_leb_total.
      * destruct (dt_leb (a_due a) (a_due c)).
        -- constructor. now apply dt_leb_total.
        -- inversion Hhd; subst. now constructor.
Qed.

Lemma sort_by_due_sorted (l : list Assignment) : Sorted due_le (sort_by_due l).
Proof.
  induction l as [|a l IH]; simpl; [constructor|].
  now apply insert_by_due_sorted.
Qed.

Lemma due_le_trans : Relations_1.Transitive due_le.
Proof. intros a b c. apply dt_leb_trans. Qed.

(** Insertion passes only over strictly earlier assignments, so it never
    moves [a] behind one with the same due timestamp. *)
Lemma insert_by_due_same_due (d : datetime) (a : Assignment)
  (l : list Assignment) :
  filter (fun x => dt_eqb (a_due x) d) (insert_by_due a l) =
  filter (fun x => dt_eqb (a_due x) d) (a :: l).
Proof.
  induction l as [|b l IH]; [reflexivity|].
  simpl insert_by_due. destruct (dt_leb (a_due a) (a_due b)) eqn:E; [reflexivity|].
  simpl filter. simpl filter in IH. rewrite IH.
  destruct (dt_eqb (a_due a) d) eqn:Ea; [|reflexivity].
  destruct (dt_eqb (a_due b) d) eqn:Eb; [|reflexivity].
  apply dt_eqb_eq in Ea, Eb.
  rewrite dt_leb_of_eq in E by congruence. discriminate.
Qed.

Lemma sort_by_due_same_due (d : datetime) (l : list Assignment) :
  filter (fun x => dt_eqb (a_due x) d) (sort_by_due l) =
  filter (fun x => dt_eqb (a_due x) d) l.
Proof.
  induction l as [|a l IH]; [reflexivity|].
  simpl sort_by_due. rewrite insert_by_due_same_due.
  simpl. now rewrite IH.
Qed.

(** ** parse_weights and parse_assignments *)

(** C10: when rows of the weights sheet that are accepted share a trimmed
    label, the mapping [parse_weights] returns gives that label the weight
    of the last of them, and its labels are pairwise distinct. Here
    [entries] are the rows as the loop classifies them, in sheet order. *)
Theorem parse_weights_last_label_wins (fs : filesystem) (xlsx_path : str)
  (weights : CourseWeights)
  (Hparse : parse_weights fs xlsx_path = Ok weights) :
  exists rows entries,
    open_sheet fs xlsx_path ASSESSMENT_SHEET
      (lit "Sheet with course weights not found") = Ok rows
    /\ Forall2 (fun r e => weight_entry r = Ok e) rows entries
    /\ NoDup (map fst weights)
    /\ (forall label,
          In label (map fst weights) <-> In label (map fst (present entries)))
    /\ (forall pre label x post,
          present entries = pre ++ (label, x) :: post ->
          ~ In label (map fst post) ->
          dict_get label weights = Some x).
Proof.
  unfold parse_weights in Hparse. apply bind_ok in Hparse.
  destruct Hparse as [rows [Hopen Hloop]].
  apply (for_each_classified weight_entry
           (fun e s => dict_set (fst e) (snd e) s)
           weights_step weights_step_classified) in Hloop.
  destruct Hloop as [entries [HF Hw]].
  change (weights = store_all (present entries) []) in Hw.
  exists rows, entries. repeat split; try assumption.
  - subst weights. apply store_all_NoDup. constructor.
  - subst weights. rewrite store_all_keys. simpl. tauto.
  - subst weights. rewrite store_all_keys. simpl. tauto.
  - intros pre label x post Hsplit Hlast. subst weights. rewrite Hsplit.
    now apply store_all_last_wins.
Qed.

(** C6: the list [parse_assignments] returns is sorted non-decreasing by due
    timestamp, and assignments with equal due timestamps keep the order of
    their rows: [opts] are the rows as the loop classifies them, in sheet
    order, and for every timestamp the result lists the assignments due
    then exactly as the sheet does. *)
Theorem parse_assignments_sorted_stable (fs : filesystem) (xlsx_path : str)
  (results : list Assignment)
  (Hparse : parse_assignments fs xlsx_path = Ok results) :
  StronglySorted (fun a b => dt_leb (a_due a) (a_due b) = true) results
  /\ exists rows opts,
       open_sheet fs xlsx_path ASSIGNMENTS_SHEET
         (lit "Sheet with assignments not found") = Ok rows
       /\ Forall2 (fun r o => assignment_of_row r = Ok o) rows opts
       /\ Permutation (present opts) results
       /\ forall d,
            filter (fun a => dt_eqb (a_due a) d) results =
            filter (fun a => dt_eqb (a_due a) d) (present opts).
Proof.
  unfold parse_assignments in Hparse. apply bind_ok in Hparse.
  destruct Hparse as [rows [Hopen Hrest]].
  apply bind_ok in Hrest. destruct Hrest as [collected [Hcollect Hsort]].
  injection Hsort as <-.
  apply collect_assignments_ok in Hcollect. destruct Hcollect as [opts [HF ->]].
  split.
  - apply Sorted_StronglySorted; [exact due_le_trans|apply sort_by_due_sorted].
  - exists rows, opts. repeat split; try assumption.
    + symmetry. apply sort_by_due_perm.
    + intros d. apply sort_by_due_same_due.
Qed.

(** ** format_nearest *)

Lemma firstn_incl {A : Type} (n : nat) (l : list A) (x : A) :
  In x (firstn n l) -> In x l.
Proof.
  revert l. induction n as [|n IH]; intros [|y l]; simpl; try tauto.
  intros [H|H]; [now left|right; now apply IH].
Qed.

Lemma slice_to_incl {A : Type} (limit : Z) (l : list A) (x : A) :
  In x (slice_to limit l) -> In x l.
Proof.
  unfold slice_to. destruct (0 <=? limit); apply firstn_incl.
Qed.

Lemma slice_to_length {A : Type} (limit : Z) (l : list A) :
  0 <= limit -> Z.of_nat (length (slice_to limit l)) <= limit.
Proof.
  intros H. unfold slice_to.
  destruct (0 <=? limit) eqn:E; [|apply Z.leb_gt in E; lia].
  pose proof (firstn_le_length (Z.to_nat limit) l).
  rewrite length_firstn. lia.
Qed.

Lemma slice_to_nil {A : Type} (limit : Z) : slice_to limit (@nil A) = [].
Proof.
  unfold slice_to. destruct (0 <=? limit); apply firstn_nil.
Qed.

Lemma bullet_line_head (a : Assignment) :
  exists rest, bullet_line a = 8226 :: rest.
Proof.
  destruct a as [[title due] link]. unfold bullet_line.
  destruct (truthy link); eexists; reflexivity.
Qed.

Lemma join_head (sep : str) (c : char) (rest : str) (parts : list str) :
  exists rest', join sep ((c :: rest) :: parts) = c :: rest'.
Proof.
  destruct parts as [|p parts]; simpl; eexists; reflexivity.
Qed.

Lemma bullets_head (a : Assignment) (l : list Assignment) :
  exists rest, join NEWLINE (map bullet_line (a :: l)) = 8226 :: rest.
Proof.
  simpl map. destruct (bullet_line_head a) as [r ->]. apply join_head.
Qed.

Lemma NOT_CONFIGURED_head : exists rest, NOT_CONFIGURED = 1053 :: rest.
Proof. eexists. vm_compute. reflexivity. Qed.

Lemma NO_DEADLINES_SOON_head : exists rest, NO_DEADLINES_SOON = 1042 :: rest.
Proof. eexists. vm_compute. reflexivity. Qed.

Lemma messages_distinct : NOT_CONFIGURED <> NO_DEADLINES_SOON.
Proof.
  destruct NOT_CONFIGURED_head as [r1 H1], NO_DEADLINES_SOON_head as [r2 H2].
  rewrite H1, H2. discriminate.
Qed.

Lemma format_nearest_cases (assignments : list Assignment) (limit : Z)
  (now : datetime) :
  (assignments = [] /\ format_nearest assignments limit now = NOT_CONFIGURED)
  \/ (assignments <> [] /\ nearest_shown assignments limit now = []
      /\ format_nearest assignments limit now = NO_DEADLINES_SOON)
  \/ (assignments <> [] /\ nearest_shown assignments limit now <> []
      /\ format_nearest assignments limit now =
         join NEWLINE (map bullet_line (nearest_shown assignments limit now))
      /\ exists rest, format_nearest assignments limit now = 8226 :: rest).
Proof.
  unfold format_nearest. destruct assignments as [|a0 rest]; simpl is_nil.
  - left. split; reflexivity.
  - right. destruct (nearest_shown (a0 :: rest) limit now) as [|b shown] eqn:E.
    + left. repeat split; congruence.
    + right. repeat split; try congruence.
      change (is_nil (map bullet_line (b :: shown))) with false. cbv iota.
      apply bullets_head.
Qed.

(** C7: [format_nearest] renders only assignments of the list that are due
    in the closed window from [now] to [now] plus 14 days, at most [limit]
    of them (5 by default): what it returns is one of the two fixed messages
    or the bullets of exactly the assignments [nearest_shown]. *)
Theorem format_nearest_window_and_limit (assignments : list Assignment)
  (limit : Z) (now : datetime) (Hlimit : 0 <= limit) :
  let shown := nearest_shown assignments limit now in
  Forall (fun a => In a assignments
                   /\ dt_leb now (a_due a) = true
                   /\ dt_leb (a_due a) (dt_add_days now 14) = true) shown
  /\ Z.of_nat (length shown) <= limit
  /\ (format_nearest assignments limit now = NOT_CONFIGURED
      \/ format_nearest assignments limit now = NO_DEADLINES_SOON
      \/ format_nearest assignments limit now =
         join NEWLINE (map bullet_line shown))
  /\ DEFAULT_LIMIT = 5.
Proof.
  intros shown. repeat split.
  - apply Forall_forall. intros a Ha. apply slice_to_incl in Ha.
    unfold nearest_window in Ha. apply filter_In in Ha.
    destruct Ha as [Hin Hb]. apply andb_true_iff in Hb. tauto.
  - now apply slice_to_length.
  - destruct (format_nearest_cases assignments limit now)
      as [[_ H]|[[_ [_ H]]|[_ [_ [H _]]]]]; tauto.
Qed.

(** C8: on the empty list [format_nearest] returns the message that nothing
    is configured; on a list that is not empty but has no assignment in the
    14-day window it returns the other message, that no deadline is near;
    the two messages differ, and neither is ever returned in the situation
    of the other. *)
Theorem format_nearest_empty_outcomes (a0 : Assignment)
  (rest : list Assignment) (limit : Z) (now : datetime)
  (Hwindow : nearest_window (a0 :: rest) now = []) :
  format_nearest [] limit now = NOT_CONFIGURED
  /\ format_nearest (a0 :: rest) limit now = NO_DEADLINES_SOON
  /\ NOT_CONFIGURED <> NO_DEADLINES_SOON
  /\ (forall l lim t, format_nearest l lim t = NOT_CONFIGURED <-> l = [])
  /\ (forall l lim t, format_nearest l lim t = NO_DEADLINES_SOON <->
                      l <> [] /\ nearest_shown l lim t = []).
Proof.
  assert (Hnc : forall l lim t, format_nearest l lim t = NOT_CONFIGURED <-> l = []).
  { intros l lim t. destruct (format_nearest_cases l lim t)
      as [[Hl H]|[[Hl [_ H]]|[Hl [_ [_ [r H]]]]]]; rewrite H.
    - tauto.
    - split; [|contradiction]. intros E. symmetry in E.
      now apply messages_distinct in E.
    - split; [|contradiction]. destruct NOT_CONFIGURED_head as [r' ->].
      discriminate. }
  assert (Hnd : forall l lim t, format_nearest l lim t = NO_DEADLINES_SOON <->
                                l <> [] /\ nearest_shown l lim t = []).
  { intros l lim t. destruct (format_nearest_cases l lim t)
      as [[Hl H]|[[Hl [Hs H]]|[Hl [Hs [_ [r H]]]]]]; rewrite H.
    - split; [|tauto]. intros E. now apply messages_distinct in E.
    - tauto.
    - split; [|tauto]. destruct NO_DEADLINES_SOON_head as [r' ->].
      discriminate. }
  split; [reflexivity|].
  split.
  { apply Hnd. split; [discriminate|].
    unfold nearest_shown. rewrite Hwindow. apply slice_to_nil. }
  split; [exact messages_distinct|].
  split; assumption.
Qed.

(** ** format_info *)




(** ** daily_reminder_callback *)

Lemma date_eqb_eq (a b : date) : date_eqb a b = true <-> a = b.
Proof.
  unfold date_eqb. destruct a, b. simpl. rewrite !andb_true_iff, !Z.eqb_eq.
  split; [intros [[-> ->] ->]; reflexivity|intros H; injection H; auto].
Qed.

Lemma due_on_exists (target : date) (assignments : list Assignment) :
  existsb (due_on target) assignments = true <->
  exists a, In a assignments /\ date_of (a_due a) = target.
Proof.
  rewrite existsb_exists. unfold due_on.
  split; intros [a [Hin H]]; exists a; (split; [assumption|]);
    now apply date_eqb_eq.
Qed.

Lemma is_nil_filter {A : Type} (p : A -> bool) (l : list A) :
  is_nil (filter p l) = negb (existsb p l).
Proof.
  induction l as [|x l IH]; [reflexivity|].
  simpl. destruct (p x); [reflexivity|exact IH].
Qed.

(** The loop over the assignments fills each bucket with the assignments due
    on its target date, in list order. *)
Lemma buckets_are_filters (week_target day_target : date)
  (assignments week_items day_items : list Assignment) :
  fold_left (bucket_step week_target day_target) assignments
    (week_items, day_items)
  = (week_items ++ filter (due_on week_target) assignments,
     day_items ++ filter (due_on day_target) assignments).
Proof.
  revert week_items day_items.
  induction assignments as [|a l IH]; intros week_items day_items; simpl.
  - now rewrite !app_nil_r.
  - rewrite IH. unfold due_on.
    destruct (date_eqb (date_of (a_due a)) week_target);
      destruct (date_eqb (date_of (a_due a)) day_target);
      rewrite <- ?app_assoc; reflexivity.
Qed.

Lemma build_message_filter (label : str) (target : date)
  (assignments : list Assignment) :
  build_message label (filter (due_on target) assignments)
  = if existsb (due_on target) assignments
    then Some (reminder_text label (filter (due_on target) assignments))
    else None.
Proof.
  unfold build_message. rewrite is_nil_filter.
  destruct (existsb (due_on target) assignments); reflexivity.
Qed.

Lemma reminder_text_head (label : str) (items : list Assignment) :
  exists rest, reminder_text label items = 128276 :: rest.
Proof. unfold reminder_text, reminder_header. apply join_head. Qed.

Lemma reminder_text_truthy (label : str) (items : list Assignment) :
  truthy (reminder_text label items) = true.
Proof. destruct (reminder_text_head label items) as [r ->]. reflexivity. Qed.

(** The label is read at the twenty-first character of a reminder. *)
Lemma reminder_text_label (week_items day_items : list Assignment) :
  reminder_text WEEK_LABEL week_items <> reminder_text DAY_LABEL day_items.
Proof.
  intros H. apply (f_equal (fun t => nth_error t 20)) in H.
  unfold reminder_text in H.
  destruct (map bullet_line week_items), (map bullet_line day_items);
    vm_compute in H; discriminate.
Qed.

(** C4: a tick whose job names a chat and a document that parses sends the
    week reminder exactly when some assignment is due on the calendar date
    seven days after today, the day reminder exactly when some assignment is
    due tomorrow, nothing for an empty bucket, and the week reminder before
    the day reminder: [sent] is what the tick adds to the outbox. *)
Theorem daily_reminder_week_then_day (job : Job) (chat_id : Z)
  (xlsx_path : str) (assignments : list Assignment) (today : date) (w : World)
  (Hdata : job_data job = Some (mkJobData (Some chat_id) (Some xlsx_path)))
  (Hchat : chat_id <> 0) (Hpath : xlsx_path <> [])
  (Hparse : parse_assignments (files w) xlsx_path = Ok assignments) :
  let week_target := date_add_days today 7 in
  let day_target := date_add_days today 1 in
  let week_text :=
    reminder_text WEEK_LABEL (filter (due_on week_target) assignments) in
  let day_text :=
    reminder_text DAY_LABEL (filter (due_on day_target) assignments) in
  exists sent,
    outbox (daily_reminder_callback job today w) = outbox w ++ sent
    /\ sent = (if existsb (due_on week_target) assignments
               then [(chat_id, week_text)] else [])
              ++ (if existsb (due_on day_target) assignments
                  then [(chat_id, day_text)] else [])
    /\ (In (chat_id, week_text) sent <->
        exists a, In a assignments /\ date_of (a_due a) = week_target)
    /\ (In (chat_id, day_text) sent <->
        exists a, In a assignments /\ date_of (a_due a) = day_target)
    /\ (length sent <= 2)%nat.
Proof.
  intros week_target day_target week_text day_text.
  eexists. split; [|split; [reflexivity|]].
  - unfold daily_reminder_callback. rewrite Hdata. simpl jd_chat_id.
    simpl jd_xlsx_path. cbv beta iota.
    replace ((chat_id =? 0) || negb (truthy xlsx_path)) with false.
    2:{ symmetry. apply orb_false_iff. split; [now apply Z.eqb_neq|].
        destruct xlsx_path; [contradiction|reflexivity]. }
    rewrite Hparse. unfold remind.
    rewrite buckets_are_filters. simpl app.
    rewrite !build_message_filter.
    fold week_target day_target. fold week_text day_text.
    unfold send_if, send.
    destruct (existsb (due_on week_target) assignments);
      destruct (existsb (due_on day_target) assignments);
      unfold week_text, day_text; rewrite ?reminder_text_truthy; simpl;
      rewrite <- ?app_assoc, ?app_nil_r; reflexivity.
  - rewrite <- !due_on_exists.
    pose proof (reminder_text_label
                  (filter (due_on week_target) assignments)
                  (filter (due_on day_target) assignments)) as Hne.
    fold week_text day_text in Hne.
    destruct (existsb (due_on week_target) assignments);
      destruct (existsb (due_on day_target) assignments);
      simpl; (split; [|split]); try lia;
      intuition (try discriminate; try congruence).
Qed.

(** ** schedule_chat_reminders *)

Lemma uint_digits_inj (a b : Decimal.uint) :
  uint_digits a = uint_digits b -> a = b.
Proof.
  revert b. induction a; intros b; destruct b; simpl; intros H;
    try discriminate; try reflexivity;
    injection H as H; f_equal; auto.
Qed.

Lemma uint_digits_no_minus (d : Decimal.uint) (s : str) :
  uint_digits d <> 45 :: s.
Proof. destruct d; simpl; discriminate. Qed.

Lemma str_of_int_inj (a b : Z) : str_of_int a = str_of_int b -> a = b.
Proof.
  unfold str_of_int. intros H. apply DecimalZ.to_int_inj.
  destruct (Z.to_int a) as [da|da], (Z.to_int b) as [db|db].
  - f_equal. now apply uint_digits_inj.
  - now apply uint_digits_no_minus in H.
  - symmetry in H. now apply uint_digits_no_minus in H.
  - injection H as H. f_equal. now apply uint_digits_inj.
Qed.

(** C1 (what the code does): with a job queue present, a call for one chat
    empties the scheduler before it registers the job of that chat, so the
    job registered under any other chat is gone after the call. *)
Theorem schedule_chat_reminders_clears_other_chats (w : World)
  (jobs : list Job) (chat other : Z) (xlsx_path : str)
  (Hqueue : job_queue w = Some jobs)
  (Hother : other <> chat) :
  job_queue (schedule_chat_reminders chat xlsx_path w)
  = Some [reminder_job chat xlsx_path]
  /\ jobs_of_chat other (schedule_chat_reminders chat xlsx_path w) = [].
Proof.
  unfold jobs_of_chat, schedule_chat_reminders. rewrite Hqueue.
  split; [reflexivity|]. cbn [job_queue app filter reminder_job job_name].
  destruct (str_eqb (lit "daily:" ++ str_of_int chat)
              (lit "daily:" ++ str_of_int other)) eqn:E; [|reflexivity].
  apply str_eqb_eq in E. apply app_inv_head in E.
  apply str_of_int_inj in E. congruence.
Qed.

(** ** handle_document *)

(** C3 (as amended): an upload named .xlsx or .xlsm is written over the
    document of the chat before it is validated. When validation raises,
    the file stays, the user is told of the failure, and the handler
    returns there: the job queue and the update flag are as they were. Only
    when validation passes is the reminder job of the chat registered. *)
Theorem handle_document_validation_gate (update : Update) (w : World)
  (m : Message) (doc : Attachment)
  (Hmessage : message update = Some m)
  (Hdoc : pick_document m = Some doc)
  (Hname : is_excel_name
             (lower (match file_name doc with Some n => n | None => [] end))
           = true) :
  let chat_id := effective_chat_id update in
  let path := get_chat_file chat_id in
  let w' := handle_document update w in
  let first_reply :=
    (chat_id, if expecting_update w then MSG_UPDATING else MSG_RECEIVING) in
  files w' = write_file path (content doc) (files w)
  /\ files w' path = Some (content doc)
  /\ match validate (files w') path with
     | Raise exc =>
         outbox w' = outbox w ++ [first_reply;
                                  (chat_id, MSG_SAVED_BUT_UNREADABLE exc)]
         /\ job_queue w' = job_queue w
         /\ expecting_update w' = expecting_update w
     | Ok _ =>
         job_queue w'
         = match job_queue w with
           | Some _ => Some [reminder_job chat_id path]
           | None => None
           end
         /\ expecting_update w' = false
     end.
Proof.
  intros chat_id path w' first_reply.
  assert (Hfiles : files w' = write_file path (content doc) (files w)).
  { unfold w', handle_document. rewrite Hmessage, Hdoc, Hname. simpl negb.
    cbv iota. cbn [files send].
    fold chat_id. fold path.
    destruct (validate (write_file path (content doc) (files w)) path);
      [|reflexivity].
    unfold schedule_chat_reminders. cbn [job_queue files send].
    destruct (job_queue w); reflexivity. }
  split; [exact Hfiles|]. split.
  { rewrite Hfiles. unfold write_file. now rewrite str_eqb_refl. }
  rewrite Hfiles.
  unfold w', handle_document. rewrite Hmessage, Hdoc, Hname. simpl negb.
  cbv iota. cbn [files send].
  fold chat_id. fold path.
  destruct (validate (write_file path (content doc) (files w)) path) as [u|exc].
  - unfold schedule_chat_reminders. cbn [job_queue files send outbox expecting_update].
    destruct (job_queue w); split; reflexivity.
  - cbn [send outbox job_queue expecting_update files]. fold first_reply.
    rewrite <- app_assoc. repeat split.
Qed.

(** ** Rows that are passed over, and rows that stop the parser *)

Lemma assignment_of_row_empty_title (c0 c1 c2 : cell) (rest : row) :
  cell_text c0 = [] -> assignment_of_row (c0 :: c1 :: c2 :: rest) = Ok None.
Proof.
  intros H. unfold assignment_of_row. simpl.
  destruct (is_none c0), (is_none c1), (is_none c2); simpl;
    rewrite ?H; reflexivity.
Qed.

Lemma assignment_of_row_unmatched_due (c0 c2 : cell) (s : str) (rest : row) :
  match_date (strip s) = None ->
  assignment_of_row (c0 :: CStr s :: c2 :: rest) = Ok None.
Proof.
  intros H. unfold assignment_of_row. simpl.
  destruct (is_none c0); simpl; destruct (truthy (cell_text c0)); simpl;
    rewrite ?H; reflexivity.
Qed.

(** A row that raises ends the loop with its exception, whatever the rows
    before and after it are. *)
Lemma collect_assignments_raises (before after : list row) (r : row)
  (opts : list (option Assignment)) (e : exn) :
  Forall2 (fun r o => assignment_of_row r = Ok o) before opts ->
  assignment_of_row r = Raise e ->
  collect_assignments (before ++ r :: after) = Raise e.
Proof.
  unfold collect_assignments. generalize (@nil Assignment).
  intros acc HF Hr. revert acc.
  induction HF as [|x o xs os Hx HF IH]; intros acc; simpl.
  - unfold assignments_step. now rewrite Hr.
  - unfold assignments_step at 1. rewrite Hx. simpl.
    destruct o; simpl; apply IH.
Qed.

(** What the expression matches is the first ten characters. *)
Lemma match_date_ignores_tail (s tail : str) (dmy : Z * Z * Z) :
  match_date s = Some dmy -> match_date (s ++ tail) = Some dmy.
Proof.
  do 10 (destruct s as [|? s]; [discriminate|]). simpl. trivial.
Qed.

(** C2 (what the code does): a due string with the shape of a date that
    names no calendar date is not passed over; [datetime(2024, 2, 31)]
    raises and the exception leaves [parse_assignments], so the row HW1
    before it is lost with it. *)
Theorem parse_assignments_invalid_date_raises :
  parse_assignments (single_file (get_chat_file 1) (Xlsx invalid_date_book))
    (get_chat_file 1)
  = Raise (ValueError (lit "day is out of range for month")).
Proof. reflexivity. Qed.

(** C5 (what the code does): the due string 01.02.2024abc is not exactly of
    the shape DD.MM.YYYY, and its row is accepted, due 1 February 2024. *)
Theorem parse_assignments_accepts_trailing_text :
  parse_assignments (single_file (get_chat_file 1) (Xlsx trailing_text_book))
    (get_chat_file 1)
  = Ok [(lit "HW1", at_midnight 2024 2 1, [])].
Proof. reflexivity. Qed.

End BotFacts.

(* ===================================================================== *)
(** * The theorems at work on the sample documents *)
(* ===================================================================== *)

Lemma parse_weights_last_label_wins_witness :
  exists rows entries,
    open_sheet (RT := RT0) course_files (get_chat_file 1)
      ASSESSMENT_SHEET (lit "Sheet with course weights not found") = Ok rows
    /\ Forall2 (fun r e => weight_entry r = Ok e) rows entries
    /\ NoDup (map fst [(lit "HW", 2); (lit "Exam", 3)])
    /\ (forall label,
          In label (map fst [(lit "HW", 2); (lit "Exam", 3)])
          <-> In label (map fst (present entries)))
    /\ (forall pre label x post,
          present entries = pre ++ (label, x) :: post ->
          ~ In label (map fst post) ->
          dict_get label [(lit "HW", 2); (lit "Exam", 3)] = Some x).
Proof.
  apply (parse_weights_last_label_wins (RT := RT0)
           course_files (get_chat_file 1)).
  vm_compute. reflexivity.
Defined.

Lemma parse_assignments_sorted_stable_witness :
  StronglySorted (fun a b => dt_leb (a_due a) (a_due b) = true)
    course_assignments
  /\ exists rows opts,
       open_sheet (RT := RT0) course_files (get_chat_file 1)
         ASSIGNMENTS_SHEET (lit "Sheet with assignments not found") = Ok rows
       /\ Forall2 (fun r o => assignment_of_row r = Ok o) rows opts
       /\ Permutation (present opts) course_assignments
       /\ forall d,
            filter (fun a => dt_eqb (a_due a) d) course_assignments =
            filter (fun a => dt_eqb (a_due a) d) (present opts).
Proof.
  apply (parse_assignments_sorted_stable (RT := RT0)
           course_files (get_chat_file 1)).
  vm_compute. reflexivity.
Defined.

Lemma format_nearest_window_and_limit_witness :
  let now := mkdatetime 2024 3 8 12 0 0 0 in
  let shown :=
    nearest_shown course_assignments 2 now in
  Forall (fun a => In a course_assignments
                   /\ dt_leb now (a_due a) = true
                   /\ dt_leb (a_due a) (dt_add_days now 14) = true) shown
  /\ Z.of_nat (length shown) <= 2
  /\ (format_nearest course_assignments 2 now = NOT_CONFIGURED
      \/ format_nearest course_assignments 2 now = NO_DEADLINES_SOON
      \/ format_nearest course_assignments 2 now =
         join NEWLINE (map bullet_line shown))
  /\ DEFAULT_LIMIT = 5.
Proof.
  apply (format_nearest_window_and_limit
           course_assignments 2 (mkdatetime 2024 3 8 12 0 0 0)).
  lia.
Defined.

Lemma format_nearest_empty_outcomes_witness :
  let now := mkdatetime 2024 4 1 9 30 0 0 in
  format_nearest [] 5 now = NOT_CONFIGURED
  /\ format_nearest course_assignments 5 now = NO_DEADLINES_SOON
  /\ NOT_CONFIGURED <> NO_DEADLINES_SOON
  /\ (forall l lim t, format_nearest l lim t = NOT_CONFIGURED <-> l = [])
  /\ (forall l lim t, format_nearest l lim t = NO_DEADLINES_SOON <->
                      l <> [] /\ nearest_shown l lim t = []).
Proof.
  apply (format_nearest_empty_outcomes
           (lit "Quiz", at_midnight 2024 3 8, [])
           (tl course_assignments) 5 (mkdatetime 2024 4 1 9 30 0 0)).
  vm_compute. reflexivity.
Defined.


Lemma daily_reminder_week_then_day_witness :
  let today := mkdate 2024 3 7 in
  let week_text :=
    reminder_text WEEK_LABEL
      (filter (due_on (date_add_days today 7)) course_assignments) in
  let day_text :=
    reminder_text DAY_LABEL
      (filter (due_on (date_add_days today 1)) course_assignments) in
  exists sent,
    outbox (daily_reminder_callback job_1 today world_chat_1)
    = outbox world_chat_1 ++ sent
    /\ sent = (if existsb (due_on (date_add_days today 7)) course_assignments
               then [(1, week_text)] else [])
              ++ (if existsb (due_on (date_add_days today 1)) course_assignments
                  then [(1, day_text)] else [])
    /\ (In (1, week_text) sent <->
        exists a, In a course_assignments
                  /\ date_of (a_due a) = date_add_days today 7)
    /\ (In (1, day_text) sent <->
        exists a, In a course_assignments
                  /\ date_of (a_due a) = date_add_days today 1)
    /\ (length sent <= 2)%nat.
Proof.
  apply (daily_reminder_week_then_day (RT := RT0) job_1 1 (get_chat_file 1)
           course_assignments (mkdate 2024 3 7) world_chat_1).
  - reflexivity.
  - lia.
  - vm_compute. discriminate.
  - vm_compute. reflexivity.
Defined.

Lemma schedule_chat_reminders_clears_other_chats_witness :
  jobs_of_chat 2 world_chat_2 = [job_2]
  /\ job_queue (schedule_chat_reminders 1 (get_chat_file 1) world_chat_2)
     = Some [job_1]
  /\ jobs_of_chat 2 (schedule_chat_reminders 1 (get_chat_file 1) world_chat_2)
     = [].
Proof.
  split; [vm_compute; reflexivity|].
  apply (schedule_chat_reminders_clears_other_chats (RT := RT0)
           world_chat_2 [job_2] 1 2 (get_chat_file 1)).
  - reflexivity.
  - lia.
Defined.

Lemma handle_document_validation_gate_witness :
  let path := get_chat_file 7 in
  let w' := handle_document failing_upload world_idle in
  files w' = write_file path (Xlsx weights_only_book) (files world_idle)
  /\ files w' path = Some (Xlsx weights_only_book)
  /\ match validate (files w') path with
     | Raise exc =>
         outbox w' = outbox world_idle
                     ++ [(7, MSG_RECEIVING); (7, MSG_SAVED_BUT_UNREADABLE exc)]
         /\ job_queue w' = job_queue world_idle
         /\ expecting_update w' = expecting_update world_idle
     | Ok _ =>
         job_queue w'
         = match job_queue world_idle with
           | Some _ => Some [job_7]
           | None => None
           end
         /\ expecting_update w' = false
     end.
Proof.
  apply (handle_document_validation_gate (RT := RT0) failing_upload world_idle
           (mkMessage
              (Some (mkAttachment (Some (lit "grades.xlsx"))
                       (Xlsx weights_only_book)))
              NoAttachment)
           (mkAttachment (Some (lit "grades.xlsx")) (Xlsx weights_only_book))).
  - reflexivity.
  - reflexivity.
  - vm_compute. reflexivity.
Defined.

(** C3 (as stated) fails: the upload of a workbook without the sheet of
    assignments is stored and reported, and after the handler has returned
    no reminder job is registered for the chat. *)
Lemma handle_document_failed_upload_registers_no_job :
  let w' := handle_document failing_upload world_idle in
  files w' (get_chat_file 7) = Some (Xlsx weights_only_book)
  /\ validate (files w') (get_chat_file 7)
     = Raise (ValueError (lit "Sheet with assignments not found"))
  /\ outbox w'
     = [(7, MSG_RECEIVING);
        (7, MSG_SAVED_BUT_UNREADABLE
              (ValueError (lit "Sheet with assignments not found")))]
  /\ job_queue w' = Some []
  /\ jobs_of_chat 7 w' = [].
Proof. vm_compute. repeat split. Qed.

(* ===================================================================== *)
(** * Further properties of the code *)
(* ===================================================================== *)

Section MoreFacts.

Context {RT : Runtime}.

(** ** Trimming *)

Lemma drop_while_suffix (p : char -> bool) (s : str) :
  exists pre, s = pre ++ drop_while p s.
Proof.
  induction s as [|c s [pre IH]]; simpl.
  - now exists [].
  - destruct (p c).
    + exists (c :: pre). simpl. now f_equal.
    + now exists [].
Qed.

Lemma drop_while_head (p : char -> bool) (s : str) (c : char) (rest : str) :
  drop_while p s = c :: rest -> p c = false.
Proof.
  induction s as [|x s IH]; simpl; [discriminate|].
  destruct (p x) eqn:E; [exact IH|].
  intros H. injection H as -> _. exact E.
Qed.

Lemma lstrip_clean_head (s : str) : clean_head (lstrip s).
Proof.
  unfold lstrip. destruct (drop_while isspace s) as [|c rest] eqn:E; simpl;
    [exact I|]. now apply drop_while_head in E.
Qed.

Lemma lstrip_fixed (s : str) : clean_head s -> lstrip s = s.
Proof.
  destruct s as [|c s]; simpl; [reflexivity|].
  intros H. unfold lstrip. simpl. now rewrite H.
Qed.

Lemma rstrip_prefix (s : str) : exists suf, s = rstrip s ++ suf.
Proof.
  unfold rstrip. destruct (drop_while_suffix isspace (rev s)) as [pre H].
  exists (rev pre). rewrite <- rev_app_distr, <- H. now rewrite rev_involutive.
Qed.

Lemma rstrip_clean_head (s : str) : clean_head s -> clean_head (rstrip s).
Proof.
  intros H. destruct (rstrip_prefix s) as [suf E].
  destruct (rstrip s) as [|c r]; [exact I|].
  rewrite E in H. exact H.
Qed.

Lemma rstrip_idem (s : str) : rstrip (rstrip s) = rstrip s.
Proof.
  unfold rstrip. rewrite rev_involutive. f_equal.
  destruct (drop_while isspace (rev s)) as [|c r] eqn:E; [reflexivity|].
  apply drop_while_head in E. simpl. now rewrite E.
Qed.

Lemma strip_clean_head (s : str) : clean_head (strip s).
Proof. apply rstrip_clean_head, lstrip_clean_head. Qed.

Lemma strip_trimmed (s : str) : trimmed (strip s).
Proof.
  unfold trimmed, strip.
  rewrite (lstrip_fixed (rstrip (lstrip s))) by apply strip_clean_head.
  apply rstrip_idem.
Qed.

Lemma cell_text_trimmed (c : cell) : trimmed (cell_text c).
Proof.
  unfold cell_text. destruct (is_none c); [reflexivity|apply strip_trimmed].
Qed.

Lemma truthy_nonempty (s : str) : truthy s = true <-> s <> [].
Proof. destruct s; simpl; split; congruence. Qed.

(** ** The sheets of a workbook *)

Lemma find_none_Forall {A : Type} (p : A -> bool) (l : list A) :
  Forall (fun x => p x = false) l -> find p l = None.
Proof.
  induction 1 as [|x l Hx _ IH]; simpl; [reflexivity|]. now rewrite Hx.
Qed.

Lemma aliases_apart (c1 c2 : sheet) (name : str) :
  str_in name (SHEET_ALIASES c1) = true ->
  str_in name (SHEET_ALIASES c2) = true -> c1 = c2.
Proof.
  unfold str_in. rewrite !existsb_exists.
  intros [a1 [Hin1 H1]] [a2 [Hin2 H2]].
  apply str_eqb_eq in H1, H2. subst a1. subst a2.
  destruct c1, c2; try reflexivity; exfalso; simpl in Hin1;
    repeat (destruct Hin1 as [Hin1|Hin1];
            [subst name; vm_compute in Hin2; intuition discriminate|]);
    exact Hin1.
Qed.

(** X1: no name is accepted for two logical sheets, so the sheets that two
    different parsers find in one workbook are different sheets. *)
Theorem find_sheet_name_apart (wb : workbook) (c1 c2 : sheet) (n1 n2 : str)
  (H1 : find_sheet_name wb c1 = Some n1)
  (H2 : find_sheet_name wb c2 = Some n2)
  (Hsheets : c1 <> c2) :
  n1 <> n2
  /\ In n1 (map fst wb) /\ In n2 (map fst wb)
  /\ str_in n1 (SHEET_ALIASES c1) = true
  /\ str_in n2 (SHEET_ALIASES c2) = true.
Proof.
  unfold find_sheet_name in *. apply find_some in H1, H2.
  destruct H1 as [Hin1 Ha1], H2 as [Hin2 Ha2].
  repeat split; try assumption.
  intros ->. apply Hsheets. now apply (aliases_apart c1 c2 n2).
Qed.

(** X2: a document that loads but has no sheet under an accepted name makes
    each parser raise the [ValueError] of its own sheet. *)
Theorem parsers_raise_on_missing_sheet (fs : filesystem) (path : str)
  (wb : workbook) (canonical : sheet)
  (Hload : load_workbook fs path = Ok wb)
  (Hnone : Forall (fun name => str_in name (SHEET_ALIASES canonical) = false)
             (map fst wb)) :
  match canonical with
  | ASSESSMENT_SHEET =>
      parse_weights fs path
      = Raise (ValueError (lit "Sheet with course weights not found"))
  | ASSIGNMENTS_SHEET =>
      parse_assignments fs path
      = Raise (ValueError (lit "Sheet with assignments not found"))
  | INFO_SHEET => parse_info fs path = Raise (ValueError INFO_SHEET_MISSING)
  end.
Proof.
  assert (Hfind : find_sheet_name wb canonical = None).
  { unfold find_sheet_name. now apply find_none_Forall. }
  destruct canonical; unfold parse_weights, parse_assignments, parse_info,
    open_sheet; rewrite Hload; simpl; rewrite Hfind; reflexivity.
Qed.

(** ** Rows *)

Lemma assignment_of_row_short (r : row) :
  r <> [] -> (length r < 3)%nat -> assignment_of_row r = Raise index_error.
Proof.
  destruct r as [|c0 [|c1 [|c2 rest]]]; simpl; intros Hne Hlen;
    try contradiction; try lia.
  - unfold assignment_of_row. simpl. destruct (is_none c0); reflexivity.
  - unfold assignment_of_row. simpl.
    destruct (is_none c0), (is_none c1); reflexivity.
Qed.

(** X3: a row of one or two cells stops [parse_assignments] with
    [IndexError], whatever the rows around it hold: a sheet without a third
    column cannot be read. *)
Theorem parse_assignments_short_row (fs : filesystem) (path : str)
  (before after : list row) (r : row) (opts : list (option Assignment))
  (Hopen : open_sheet fs path ASSIGNMENTS_SHEET
             (lit "Sheet with assignments not found")
           = Ok (before ++ r :: after))
  (Hbefore : Forall2 (fun r o => assignment_of_row r = Ok o) before opts)
  (Hcells : r <> [])
  (Hshort : (length r < 3)%nat) :
  parse_assignments fs path = Raise index_error.
Proof.
  unfold parse_assignments. rewrite Hopen. simpl.
  rewrite (collect_assignments_raises before after r opts index_error);
    [reflexivity|assumption|now apply assignment_of_row_short].
Qed.

(** X4: a row of a single cell raises [IndexError] in the loops of
    [parse_weights] and of [parse_info], whether the cell is empty or not. *)
Theorem one_cell_row_raises (c : cell) :
  weight_entry [c] = Raise index_error /\ info_entry [c] = Raise index_error.
Proof.
  unfold weight_entry, info_entry. simpl.
  destruct (is_none c); split; reflexivity.
Qed.

(** X5: a row of three cells or more raises only through its due cell: the
    cell is a string that matches the date expression and names no calendar
    date, under a title that is not empty; the exception is the
    [ValueError] of [datetime]. *)
Theorem assignment_of_row_raises_iff (c0 c1 c2 : cell) (rest : row) (e : exn) :
  assignment_of_row (c0 :: c1 :: c2 :: rest) = Raise e <->
  cell_text c0 <> []
  /\ exists s day month year,
       c1 = CStr s
       /\ match_date (strip s) = Some (day, month, year)
       /\ datetime_ymd year month day = Raise e.
Proof.
  unfold assignment_of_row. simpl.
  destruct (is_none c0) eqn:E0.
  - (* the title cell is empty *)
    assert (Ht : cell_text c0 = []) by (unfold cell_text; now rewrite E0).
    rewrite Ht. simpl.
    split.
    + destruct (is_none c1); simpl; [destruct (is_none c2)|]; discriminate.
    + intros [H _]. contradiction.
  - simpl. destruct (truthy (cell_text c0)) eqn:Et; simpl.
    + apply truthy_nonempty in Et.
      destruct c1 as [| b | n | x | s | d | t]; simpl;
        try (split; [discriminate|intros [_ [s' [d' [m' [y' [H _]]]]]]; discriminate]).
      destruct (match_date (strip s)) as [[[day month] year]|] eqn:Em; simpl.
      * destruct (datetime_ymd year month day) as [due|e'] eqn:Ed; simpl.
        -- split; [discriminate|].
           intros [_ [s' [d' [m' [y' [Hs [Hm Hd]]]]]]].
           inversion Hs; subst s'. rewrite Em in Hm. inversion Hm; subst.
           rewrite Ed in Hd. discriminate.
        -- split.
           ++ intros H. injection H as <-. split; [assumption|].
              exists s, day, month, year. auto.
           ++ intros [_ [s' [d' [m' [y' [Hs [Hm Hd]]]]]]].
              inversion Hs; subst s'. rewrite Em in Hm. inversion Hm; subst.
              rewrite Ed in Hd. now injection Hd as <-.
      * split; [discriminate|].
        intros [_ [s' [d' [m' [y' [Hs [Hm _]]]]]]].
        inversion Hs; subst s'. rewrite Em in Hm. discriminate.
    + split; [discriminate|]. intros [H _].
      destruct (cell_text c0); [contradiction|discriminate].
Qed.

Lemma assignment_of_row_accepted (r : row) (a : Assignment) :
  assignment_of_row r = Ok (Some a) ->
  a_title a <> [] /\ trimmed (a_title a) /\ trimmed (a_link a).
Proof.
  destruct r as [|c0 [|c1 [|c2 rest]]].
  - discriminate.
  - rewrite assignment_of_row_short by (simpl; (discriminate || lia)).
    discriminate.
  - rewrite assignment_of_row_short by (simpl; (discriminate || lia)).
    discriminate.
  - unfold assignment_of_row. simpl.
    assert (Hrest :
      (if negb (truthy (cell_text c0)) then Ok None
       else due <- due_of_cell c1 ;;
            Ok (option_map (fun due => (cell_text c0, due, cell_text c2)) due))
      = Ok (Some a) ->
      a_title a <> [] /\ trimmed (a_title a) /\ trimmed (a_link a)).
    { destruct (truthy (cell_text c0)) eqn:Et; simpl; [|discriminate].
      destruct (due_of_cell c1) as [[due|]|]; simpl; try discriminate.
      intros H. injection H as <-. unfold a_title, a_link. simpl.
      repeat split; try apply cell_text_trimmed.
      now apply truthy_nonempty. }
    destruct (is_none c0); simpl; [|exact Hrest].
    destruct (is_none c1); simpl; [|exact Hrest].
    destruct (is_none c2); simpl; [discriminate|exact Hrest].
Qed.

Lemma present_Forall {E : Type} (P : E -> Prop) (opts : list (option E)) :
  Forall (fun o => match o with Some e => P e | None => True end) opts ->
  Forall P (present opts).
Proof.
  induction 1 as [|o opts Ho _ IH]; simpl; [constructor|].
  destruct o; simpl; [now constructor|assumption].
Qed.

Lemma present_length {E : Type} (opts : list (option E)) :
  (length (present opts) <= length opts)%nat.
Proof.
  induction opts as [|o opts IH]; simpl; [lia|].
  destruct o; simpl; lia.
Qed.

Lemma classified_Forall {A E : Type} (classify : A -> result (option E))
  (P : E -> Prop) (xs : list A) (opts : list (option E)) :
  (forall x e, classify x = Ok (Some e) -> P e) ->
  Forall2 (fun x o => classify x = Ok o) xs opts ->
  Forall P (present opts).
Proof.
  intros HP HF. apply present_Forall.
  induction HF as [|x o xs os Hx _ IH]; constructor; [|assumption].
  destruct o; [now apply (HP x)|exact I].
Qed.

(** X6: every assignment [parse_assignments] returns has a title that is
    not empty, and its title and its link carry no whitespace at either
    end; there are no more assignments than data rows. *)
Theorem parse_assignments_titles (fs : filesystem) (xlsx_path : str)
  (results : list Assignment)
  (Hparse : parse_assignments fs xlsx_path = Ok results) :
  Forall (fun a => a_title a <> [] /\ trimmed (a_title a)
                   /\ trimmed (a_link a)) results
  /\ exists rows,
       open_sheet fs xlsx_path ASSIGNMENTS_SHEET
         (lit "Sheet with assignments not found") = Ok rows
       /\ (length results <= length rows)%nat.
Proof.
  unfold parse_assignments in Hparse. apply bind_ok in Hparse.
  destruct Hparse as [rows [Hopen Hrest]].
  apply bind_ok in Hrest. destruct Hrest as [collected [Hcollect Hsort]].
  injection Hsort as <-.
  apply collect_assignments_ok in Hcollect. destruct Hcollect as [opts [HF ->]].
  pose proof (sort_by_due_perm (present opts)) as Hperm.
  split.
  - apply (Permutation_Forall (Permutation_sym Hperm)).
    apply (classified_Forall assignment_of_row _ rows opts); [|assumption].
    intros r a. apply assignment_of_row_accepted.
  - exists rows. split; [assumption|].
    rewrite (Permutation_length Hperm).
    rewrite (Forall2_length HF). apply present_length.
Qed.

Lemma weight_entry_accepted (r : row) (e : str * float) :
  weight_entry r = Ok (Some e) -> fst e <> [] /\ trimmed (fst e).
Proof.
  destruct r as [|c0 [|c1 rest]].
  - discriminate.
  - destruct (one_cell_row_raises c0) as [H _]. rewrite H. discriminate.
  - unfold weight_entry. simpl.
    assert (Hrest :
      (if truthy (cell_text c0) && is_number c1
       then x <- float_of_cell c1 ;;
            Ok (option_map (fun x => (cell_text c0, x)) x)
       else Ok None) = Ok (Some e) -> fst e <> [] /\ trimmed (fst e)).
    { destruct (truthy (cell_text c0)) eqn:Et; simpl; [|discriminate].
      destruct (is_number c1); [|discriminate].
      destruct (float_of_cell c1) as [[x|]|]; simpl; try discriminate.
      intros H. injection H as <-. simpl.
      split; [now apply truthy_nonempty|apply cell_text_trimmed]. }
    destruct (is_none c0); simpl; [|exact Hrest].
    destruct (is_none c1); simpl; [discriminate|exact Hrest].
Qed.

(** X7: every label of the mapping [parse_weights] returns is a string that
    is not empty and carries no whitespace at either end. *)
Theorem parse_weights_labels (fs : filesystem) (xlsx_path : str)
  (weights : CourseWeights)
  (Hparse : parse_weights fs xlsx_path = Ok weights) :
  Forall (fun label => label <> [] /\ trimmed label) (map fst weights).
Proof.
  unfold parse_weights in Hparse. apply bind_ok in Hparse.
  destruct Hparse as [rows [Hopen Hloop]].
  apply (for_each_classified weight_entry
           (fun e s => dict_set (fst e) (snd e) s)
           weights_step weights_step_classified) in Hloop.
  destruct Hloop as [entries [HF Hw]].
  change (weights = store_all (present entries) []) in Hw. subst weights.
  pose proof (classified_Forall weight_entry
                (fun e => fst e <> [] /\ trimmed (fst e)) rows entries
                weight_entry_accepted HF) as Hall.
  apply Forall_forall. intros label Hin.
  apply store_all_keys in Hin. destruct Hin as [Hin|[]].
  apply in_map_iff in Hin. destruct Hin as [e [<- He]].
  rewrite Forall_forall in Hall. now apply Hall.
Qed.

Lemma info_step_classified (r : row) (rows : list (str * str)) :
  info_step r rows =
  (e <- info_entry r ;;
   Ok (match e with Some e => rows ++ [e] | None => rows end)).
Proof.
  unfold info_step. destruct (info_entry r) as [[e|]|]; reflexivity.
Qed.

Lemma info_entry_accepted (r : row) (e : str * str) :
  info_entry r = Ok (Some e) ->
  fst e <> [] /\ trimmed (fst e) /\ trimmed (snd e).
Proof.
  destruct r as [|c0 [|c1 rest]].
  - discriminate.
  - destruct (one_cell_row_raises c0) as [_ H]. rewrite H. discriminate.
  - unfold info_entry. simpl.
    assert (Hrest :
      (if truthy (cell_text c0) then Ok (Some (cell_text c0, cell_text c1))
       else Ok None) = Ok (Some e) ->
      fst e <> [] /\ trimmed (fst e) /\ trimmed (snd e)).
    { destruct (truthy (cell_text c0)) eqn:Et; [|discriminate].
      intros H. injection H as <-. simpl.
      repeat split; try apply cell_text_trimmed. now apply truthy_nonempty. }
    destruct (is_none c0); simpl; [|exact Hrest].
    destruct (is_none c1); simpl; [discriminate|exact Hrest].
Qed.

(** X8: [parse_info] returns the rows that have a label, in sheet order and
    with repeated labels kept; every label is not empty, and labels and
    values carry no whitespace at either end. *)
Theorem parse_info_rows_in_order (fs : filesystem) (xlsx_path : str)
  (items : list (str * str))
  (Hparse : parse_info fs xlsx_path = Ok items) :
  exists rows entries,
    open_sheet fs xlsx_path INFO_SHEET INFO_SHEET_MISSING = Ok rows
    /\ Forall2 (fun r e => info_entry r = Ok e) rows entries
    /\ items = present entries
    /\ Forall (fun kv => fst kv <> [] /\ trimmed (fst kv)
                         /\ trimmed (snd kv)) items.
Proof.
  unfold parse_info in Hparse. apply bind_ok in Hparse.
  destruct Hparse as [rows [Hopen Hloop]].
  apply (for_each_classified info_entry (fun e s => s ++ [e])
           info_step info_step_classified) in Hloop.
  destruct Hloop as [entries [HF Hitems]].
  rewrite fold_left_snoc in Hitems. simpl in Hitems. subst items.
  exists rows, entries. repeat split; try assumption.
  apply (classified_Forall info_entry _ rows entries); [|assumption].
  intros r e. apply info_entry_accepted.
Qed.

(** ** Dates written as strings *)

Lemma datetime_ymd_ok (year month day : Z) (due : datetime) :
  datetime_ymd year month day = Ok due ->
  due = mkdatetime year month day 0 0 0 0
  /\ 1 <= year <= 9999 /\ 1 <= month <= 12
  /\ 1 <= day <= days_in_month year month.
Proof.
  unfold datetime_ymd.
  destruct ((1 <=? year) && (year <=? 9999)) eqn:Ey; simpl; [|discriminate].
  destruct ((1 <=? month) && (month <=? 12)) eqn:Em; simpl; [|discriminate].
  destruct ((1 <=? day) && (day <=? days_in_month year month)) eqn:Ed; simpl;
    [|discriminate].
  intros H. injection H as <-.
  apply andb_true_iff in Ey, Em, Ed.
  rewrite !Z.leb_le in Ey, Em, Ed. tauto.
Qed.

(** X9: a due string that is accepted gives midnight of a calendar date:
    the day, month and year are the three numbers the expression reads,
    the year is between 1 and 9999, the month between 1 and 12 and the day
    one of that month. *)
Theorem string_due_is_midnight (s : str) (due : datetime)
  (Hdue : due_of_cell (CStr s) = Ok (Some due)) :
  match_date (strip s) = Some (dt_day due, dt_month due, dt_year due)
  /\ dt_hour due = 0 /\ dt_minute due = 0 /\ dt_second due = 0
  /\ dt_microsecond due = 0
  /\ 1 <= dt_year due <= 9999 /\ 1 <= dt_month due <= 12
  /\ 1 <= dt_day due <= days_in_month (dt_year due) (dt_month due).
Proof.
  simpl in Hdue.
  destruct (match_date (strip s)) as [[[day month] year]|]; [|discriminate].
  apply bind_ok in Hdue. destruct Hdue as [d [Hd H]]. injection H as <-.
  apply datetime_ymd_ok in Hd. destruct Hd as [-> Hrange]. simpl. tauto.
Qed.







(** ** The formatters *)

Lemma INFO_GREETING_head : exists rest, INFO_GREETING = 1055 :: rest.
Proof. eexists. vm_compute. reflexivity. Qed.

Lemma NO_INFO_head : exists rest, NO_INFO = 1053 :: rest.
Proof. eexists. vm_compute. reflexivity. Qed.

(** X11: [format_info] returns its message for a sheet without data exactly
    when there are no items; otherwise the text is the greeting, a blank
    line, and the lines of the items a blank line apart. *)
Theorem format_info_empty_or_greeting (items : list (str * str)) :
  (format_info items = NO_INFO <-> items = [])
  /\ forall item rest,
       format_info (item :: rest)
       = INFO_GREETING ++ NEWLINE ++ NEWLINE
         ++ join (NEWLINE ++ NEWLINE) (map info_line (item :: rest)).
Proof.
  assert (Hcons : forall item rest,
            format_info (item :: rest)
            = INFO_GREETING ++ NEWLINE ++ NEWLINE
              ++ join (NEWLINE ++ NEWLINE) (map info_line (item :: rest))).
  { intros item rest. unfold format_info. cbn [is_nil map join].
    now rewrite <- app_assoc. }
  split; [|exact Hcons].
  destruct items as [|item rest]; [split; reflexivity|].
  split; [|discriminate].
  rewrite Hcons.
  destruct INFO_GREETING_head as [g ->], NO_INFO_head as [n ->].
  discriminate.
Qed.

Lemma https_has_scheme (link : str) : has_scheme (lit "https://" ++ link) = true.
Proof. destruct link; reflexivity. Qed.

Lemma trimmed_rev_clean (l : str) : trimmed l -> clean_head (rev l).
Proof.
  unfold trimmed, strip, rstrip. intros H.
  rewrite <- H at 1. rewrite rev_involutive.
  destruct (drop_while isspace (rev (lstrip l))) as [|c r] eqn:E; [exact I|].
  simpl. now apply drop_while_head in E.
Qed.

Lemma trimmed_clean_head (l : str) : trimmed l -> clean_head l.
Proof. intros H. rewrite <- H. apply strip_clean_head. Qed.

Lemma strip_behind_prefix (c : char) (pre l : str) :
  isspace c = false -> trimmed l -> l <> [] ->
  strip ((c :: pre) ++ l) = (c :: pre) ++ l.
Proof.
  intros Hc Ht Hl. unfold strip.
  rewrite lstrip_fixed by exact Hc.
  unfold rstrip. rewrite rev_app_distr.
  pose proof (trimmed_rev_clean l Ht) as Hrev.
  destruct (rev l) as [|x r] eqn:E.
  - apply (f_equal (@rev char)) in E. rewrite rev_involutive in E.
    simpl in E. contradiction.
  - change (drop_while isspace ((x :: r) ++ rev (c :: pre)))
      with (lstrip ((x :: r) ++ rev (c :: pre))).
    rewrite lstrip_fixed by exact Hrev.
    rewrite <- E, <- rev_app_distr. apply rev_involutive.
Qed.

(** X12: an item whose label is not an identity label is rendered as a link
    to [link_target] of its value: the trimmed value, behind a scheme
    prefix when it is not empty and has no scheme. The target is empty or
    begins with a scheme, and a target is its own target. *)
Theorem format_info_link_target (key val : str)
  (Hkey : str_in key username_keys = false) :
  info_line (key, val)
  = lit "• <a href=" ++ QUOTE ++ html_escape (link_target val) ++ QUOTE
    ++ lit ">" ++ html_escape key ++ lit "</a>"
  /\ (link_target val = [] <-> strip val = [])
  /\ (link_target val = [] \/ has_scheme (link_target val) = true)
  /\ link_target (link_target val) = link_target val
  /\ link_target (lit "example.com/x") = lit "https://example.com/x"
  /\ link_target (lit "https://example.com/x") = lit "https://example.com/x".
Proof.
  split; [unfold info_line; rewrite Hkey; reflexivity|].
  assert (Hcases :
    (strip val = [] /\ link_target val = [])
    \/ (strip val <> [] /\ has_scheme (strip val) = true
        /\ link_target val = strip val)
    \/ (strip val <> [] /\ has_scheme (strip val) = false
        /\ link_target val = lit "https://" ++ strip val)).
  { unfold link_target. destruct (strip val) as [|c l] eqn:E.
    - left. split; reflexivity.
    - right. cbn [truthy andb].
      destruct (has_scheme (c :: l)) eqn:Es; [left|right];
        repeat split; try discriminate; reflexivity. }
  split; [|split; [|split; [|split; reflexivity]]].
  - destruct Hcases as [[Hs Hl]|[[Hs [_ Hl]]|[Hs [_ Hl]]]]; rewrite Hl.
    + tauto.
    + tauto.
    + split; [discriminate|contradiction].
  - destruct Hcases as [[_ Hl]|[[_ [Hh Hl]]|[_ [_ Hl]]]]; rewrite Hl.
    + now left.
    + now right.
    + right. apply https_has_scheme.
  - destruct Hcases as [[_ Hl]|[[Hs [Hh Hl]]|[Hs [_ Hl]]]]; rewrite Hl.
    + reflexivity.
    + unfold link_target. rewrite (strip_trimmed val).
      rewrite Hh. now rewrite andb_false_r.
    + unfold link_target.
      change (lit "https://" ++ strip val)
        with ((104 :: lit "ttps://") ++ strip val).
      rewrite strip_behind_prefix;
        [|reflexivity|apply strip_trimmed|assumption].
      change ((104 :: lit "ttps://") ++ strip val)
        with (lit "https://" ++ strip val).
      rewrite https_has_scheme. now rewrite andb_false_r.
Qed.




(** ** Files and parsers *)

(** X15: two chats never share a document: the path of the file of a chat
    determines the chat. *)
Theorem get_chat_file_inj (a b : Z) : get_chat_file a = get_chat_file b <-> a = b.
Proof.
  split; [|now intros ->].
  unfold get_chat_file. intros H. apply app_inv_head in H.
  apply app_inv_tail in H. now apply str_of_int_inj.
Qed.

Lemma write_file_same (p : str) (f : file) (fs : filesystem) :
  write_file p f fs p = Some f.
Proof. unfold write_file. now rewrite str_eqb_refl. Qed.

Lemma write_file_other (p q : str) (f : file) (fs : filesystem) :
  q <> p -> write_file p f fs q = fs q.
Proof.
  intros H. unfold write_file. apply str_eqb_neq in H. now rewrite H.
Qed.

Lemma open_sheet_local (fs1 fs2 : filesystem) (path : str) (c : sheet)
  (missing : str) :
  fs1 path = fs2 path -> open_sheet fs1 path c missing = open_sheet fs2 path c missing.
Proof. intros H. unfold open_sheet, load_workbook. now rewrite H. Qed.

Lemma parse_weights_local (fs1 fs2 : filesystem) (path : str) :
  fs1 path = fs2 path -> parse_weights fs1 path = parse_weights fs2 path.
Proof.
  intros H. unfold parse_weights. now rewrite (open_sheet_local fs1 fs2).
Qed.

Lemma parse_assignments_local (fs1 fs2 : filesystem) (path : str) :
  fs1 path = fs2 path -> parse_assignments fs1 path = parse_assignments fs2 path.
Proof.
  intros H. unfold parse_assignments. now rewrite (open_sheet_local fs1 fs2).
Qed.

Lemma parse_info_local (fs1 fs2 : filesystem) (path : str) :
  fs1 path = fs2 path -> parse_info fs1 path = parse_info fs2 path.
Proof.
  intros H. unfold parse_info. now rewrite (open_sheet_local fs1 fs2).
Qed.

Lemma read_course_local (fs1 fs2 : filesystem) (path : str) :
  fs1 path = fs2 path -> read_course fs1 path = read_course fs2 path.
Proof.
  intros H. unfold read_course.
  now rewrite (parse_weights_local fs1 fs2), (parse_assignments_local fs1 fs2).
Qed.

Lemma validate_read_course (fs : filesystem) (path : str) :
  validate fs path
  = match read_course fs path with Ok _ => Ok tt | Raise e => Raise e end.
Proof.
  unfold validate, read_course.
  destruct (parse_weights fs path); simpl; [|reflexivity].
  destruct (parse_assignments fs path); reflexivity.
Qed.

(** ** schedule_chat_reminders and the tick *)

(** X16: without a job queue [schedule_chat_reminders] does nothing; with
    one, the chat ends with exactly one job, its own, and files, outbox and
    flag are as before; a second call for the same chat and path changes
    nothing more. *)
Theorem schedule_chat_reminders_one_job (chat_id : Z) (xlsx_path : str)
  (w : World) :
  let w' := schedule_chat_reminders chat_id xlsx_path w in
  schedule_chat_reminders chat_id xlsx_path w' = w'
  /\ files w' = files w /\ outbox w' = outbox w
  /\ expecting_update w' = expecting_update w
  /\ match job_queue w with
     | None => w' = w
     | Some _ =>
         job_queue w' = Some [reminder_job chat_id xlsx_path]
         /\ jobs_of_chat chat_id w' = [reminder_job chat_id xlsx_path]
     end.
Proof.
  unfold schedule_chat_reminders, jobs_of_chat.
  destruct w as [fs [jobs|] out flag]; simpl.
  - repeat split. now rewrite str_eqb_refl.
  - repeat split.
Qed.

Lemma send_if_frame (chat_id : Z) (text : option str) (w : World) :
  files (send_if chat_id text w) = files w
  /\ job_queue (send_if chat_id text w) = job_queue w
  /\ expecting_update (send_if chat_id text w) = expecting_update w.
Proof.
  unfold send_if, send. destruct text as [t|]; [destruct (truthy t)|];
    repeat split.
Qed.

Lemma remind_outbox (chat_id : Z) (assignments : list Assignment)
  (today : date) (w : World) :
  outbox (remind chat_id assignments today w)
  = outbox w
    ++ (if existsb (due_on (date_add_days today 7)) assignments
        then [(chat_id,
               reminder_text WEEK_LABEL
                 (filter (due_on (date_add_days today 7)) assignments))]
        else [])
    ++ (if existsb (due_on (date_add_days today 1)) assignments
        then [(chat_id,
               reminder_text DAY_LABEL
                 (filter (due_on (date_add_days today 1)) assignments))]
        else []).
Proof.
  unfold remind. rewrite buckets_are_filters. cbn [app].
  rewrite !build_message_filter. unfold send_if, send.
  destruct (existsb (due_on (date_add_days today 7)) assignments);
    destruct (existsb (due_on (date_add_days today 1)) assignments);
    rewrite ?reminder_text_truthy; simpl;
    rewrite <- ?app_assoc, ?app_nil_r; reflexivity.
Qed.

Lemma remind_frame (chat_id : Z) (assignments : list Assignment)
  (today : date) (w : World) :
  files (remind chat_id assignments today w) = files w
  /\ job_queue (remind chat_id assignments today w) = job_queue w
  /\ expecting_update (remind chat_id assignments today w) = expecting_update w.
Proof.
  unfold remind.
  destruct (fold_left _ assignments ([], [])) as [week_items day_items].
  destruct (send_if_frame chat_id (build_message DAY_LABEL day_items)
              (send_if chat_id (build_message WEEK_LABEL week_items) w))
    as [H1 [H2 H3]].
  destruct (send_if_frame chat_id (build_message WEEK_LABEL week_items) w)
    as [H4 [H5 H6]].
  repeat split; congruence.
Qed.

(** X17: a tick is silent, and leaves the world as it is, when its job has
    no data, no chat or chat 0, no path or an empty path, or a document
    that fails to parse. *)
Theorem daily_reminder_silent (job : Job) (today : date) (w : World)
  (Hbad : match job_data job with
          | Some (mkJobData (Some chat_id) (Some xlsx_path)) =>
              chat_id = 0 \/ xlsx_path = []
              \/ exists e, parse_assignments (files w) xlsx_path = Raise e
          | _ => True
          end) :
  daily_reminder_callback job today w = w.
Proof.
  unfold daily_reminder_callback.
  destruct (job_data job) as [[[c|] [p|]]|]; simpl; try reflexivity.
  destruct Hbad as [->|[->|[e He]]].
  - reflexivity.
  - simpl. now rewrite orb_true_r.
  - rewrite He. now destruct ((c =? 0) || negb (truthy p)).
Qed.

(** X18: a tick never touches the files, the job queue or the update flag;
    it adds at most two messages to the outbox, each to the chat named in
    the data of its job. *)
Theorem daily_reminder_frame (job : Job) (today : date) (w : World) :
  let w' := daily_reminder_callback job today w in
  files w' = files w /\ job_queue w' = job_queue w
  /\ expecting_update w' = expecting_update w
  /\ exists sent,
       outbox w' = outbox w ++ sent
       /\ (length sent <= 2)%nat
       /\ Forall (fun m => exists d, job_data job = Some d
                                     /\ jd_chat_id d = Some (fst m)) sent.
Proof.
  assert (Hsame : forall w0 : World,
            files w0 = files w0 /\ job_queue w0 = job_queue w0
            /\ expecting_update w0 = expecting_update w0
            /\ exists sent,
                 outbox w0 = outbox w0 ++ sent /\ (length sent <= 2)%nat
                 /\ Forall (fun m => exists d, job_data job = Some d
                                               /\ jd_chat_id d = Some (fst m))
                      sent).
  { intros w0. repeat split. exists []. rewrite app_nil_r.
    repeat split; [simpl; lia|constructor]. }
  unfold daily_reminder_callback.
  destruct (job_data job) as [[[c|] [p|]]|] eqn:Hd; simpl; try apply Hsame.
  destruct ((c =? 0) || negb (truthy p)); [apply Hsame|].
  destruct (parse_assignments (files w) p) as [assignments|e]; [|apply Hsame].
  destruct (remind_frame c assignments today w) as [H1 [H2 H3]].
  repeat split; try assumption.
  eexists. split; [apply remind_outbox|].
  destruct (existsb (due_on (date_add_days today 7)) assignments);
    destruct (existsb (due_on (date_add_days today 1)) assignments);
    simpl; (split; [lia|]);
    repeat constructor; eexists; (split; [reflexivity|reflexivity]).
Qed.

(** ** handle_document *)

(** The four ways through the handler, [fs'] being the disk after the
    download. *)
Lemma handle_document_cases (update : Update) (w : World) :
  let chat_id := effective_chat_id update in
  let path := get_chat_file chat_id in
  let w' := handle_document update w in
  let first_reply :=
    (chat_id, if expecting_update w then MSG_UPDATING else MSG_RECEIVING) in
  (w' = w
   /\ (message update = None
       \/ exists m, message update = Some m /\ pick_document m = None))
  \/ exists m doc,
       message update = Some m /\ pick_document m = Some doc
       /\ let name :=
            lower (match file_name doc with Some n => n | None => [] end) in
          let fs' := write_file path (content doc) (files w) in
          (is_excel_name name = false
           /\ w' = send chat_id MSG_SEND_EXCEL w)
          \/ (is_excel_name name = true
              /\ exists exc,
                   validate fs' path = Raise exc
                   /\ w' = mkWorld fs' (job_queue w)
                             (outbox w ++ [first_reply;
                                           (chat_id, MSG_SAVED_BUT_UNREADABLE exc)])
                             (expecting_update w))
          \/ (is_excel_name name = true
              /\ validate fs' path = Ok tt
              /\ w' = mkWorld fs'
                        (match job_queue w with
                         | Some _ => Some [reminder_job chat_id path]
                         | None => None
                         end)
                        (outbox w
                         ++ [first_reply;
                             (chat_id, if expecting_update w then MSG_UPDATED
                                       else MSG_SAVED);
                             (chat_id, if TEST_MODE then MSG_TEST_REMINDERS
                                       else MSG_DAILY_REMINDERS)])
                        false).
Proof.
  intros chat_id path w' first_reply. unfold w', handle_document.
  fold chat_id. fold path.
  destruct (message update) as [m|]; [|left; split; [reflexivity|now left]].
  destruct (pick_document m) as [doc|] eqn:Hpick;
    [|left; split; [reflexivity|right; now exists m]].
  right. exists m, doc. split; [reflexivity|]. split; [exact Hpick|].
  cbv zeta.
  destruct (is_excel_name
              (lower (match file_name doc with Some n => n | None => [] end)));
    simpl negb; cbv iota; [right|left; split; reflexivity].
  cbn [files send job_queue outbox expecting_update].
  destruct (validate (write_file path (content doc) (files w)) path)
    as [[]|exc].
  - right. split; [reflexivity|]. split; [reflexivity|].
    unfold schedule_chat_reminders, send.
    cbn [files job_queue outbox expecting_update].
    destruct (job_queue w); cbn [files job_queue outbox expecting_update app];
      rewrite <- !app_assoc; reflexivity.
  - left. split; [reflexivity|]. exists exc. split; [reflexivity|].
    unfold send. cbn [files job_queue outbox expecting_update].
    rewrite <- app_assoc. reflexivity.
Qed.

(** The two ways through the handler for a document with an Excel name. *)
Lemma handle_document_excel (update : Update) (w : World) (m : Message)
  (doc : Attachment) :
  message update = Some m ->
  pick_document m = Some doc ->
  is_excel_name (lower (match file_name doc with Some n => n | None => [] end))
  = true ->
  let chat_id := effective_chat_id update in
  let path := get_chat_file chat_id in
  let fs' := write_file path (content doc) (files w) in
  let first_reply :=
    (chat_id, if expecting_update w then MSG_UPDATING else MSG_RECEIVING) in
  (exists exc,
     validate fs' path = Raise exc
     /\ handle_document update w
        = mkWorld fs' (job_queue w)
            (outbox w ++ [first_reply; (chat_id, MSG_SAVED_BUT_UNREADABLE exc)])
            (expecting_update w))
  \/ (validate fs' path = Ok tt
      /\ handle_document update w
         = mkWorld fs'
             (match job_queue w with
              | Some _ => Some [reminder_job chat_id path]
              | None => None
              end)
             (outbox w
              ++ [first_reply;
                  (chat_id, if expecting_update w then MSG_UPDATED
                            else MSG_SAVED);
                  (chat_id, if TEST_MODE then MSG_TEST_REMINDERS
                            else MSG_DAILY_REMINDERS)])
             false).
Proof.
  intros Hmessage Hdoc Hname chat_id path fs' first_reply.
  destruct (handle_document_cases update w)
    as [[_ [Hn|[m' [Hm' Hn]]]]|[m' [doc' [Hm' [Hd' Hcases]]]]].
  - congruence.
  - rewrite Hmessage in Hm'. injection Hm' as <-. congruence.
  - rewrite Hmessage in Hm'. injection Hm' as <-.
    rewrite Hdoc in Hd'. injection Hd' as <-.
    destruct Hcases as [[Hn _]|[[_ [exc [Hv Hw]]]|[_ [Hv Hw]]]].
    + congruence.
    + left. exists exc. split; assumption.
    + right. split; assumption.
Qed.

(** X19: an upload changes no file but the one of its own chat, so the
    document of another chat is as it was, and every reply of the handler,
    at most three, goes to the chat of the upload. *)
Theorem handle_document_frame (update : Update) (w : World) (other : Z)
  (Hother : other <> effective_chat_id update) :
  let w' := handle_document update w in
  files w' (get_chat_file other) = files w (get_chat_file other)
  /\ exists sent,
       outbox w' = outbox w ++ sent
       /\ (length sent <= 3)%nat
       /\ Forall (fun m => fst m = effective_chat_id update) sent.
Proof.
  intros w'.
  assert (Hpath : get_chat_file other <> get_chat_file (effective_chat_id update))
    by (intros H; now apply get_chat_file_inj in H).
  destruct (handle_document_cases update w)
    as [[Hw _]|[m [doc [_ [_ [[_ Hw]|[[_ [exc [_ Hw]]]|[_ [_ Hw]]]]]]]]];
    fold w' in Hw; rewrite Hw; cbn [files outbox send].
  - split; [reflexivity|]. exists []. rewrite app_nil_r.
    repeat split; [simpl; lia|constructor].
  - split; [reflexivity|]. eexists. split; [reflexivity|].
    split; [simpl; lia|repeat constructor].
  - split; [now apply write_file_other|]. eexists. split; [reflexivity|].
    split; [simpl; lia|repeat constructor].
  - split; [now apply write_file_other|]. eexists. split; [reflexivity|].
    split; [simpl; lia|repeat constructor].
Qed.

(** X20: the handler writes nothing unless the document it picked has a
    name that ends, in any letter case of ASCII, in .xlsx or .xlsm; what it
    then writes is that document, at the path of the chat, before any
    validation. *)
Theorem handle_document_writes_excel_only (update : Update) (w : World) :
  let w' := handle_document update w in
  files w' = files w
  \/ exists m doc name,
       message update = Some m /\ pick_document m = Some doc
       /\ file_name doc = Some name
       /\ is_excel_name (lower name) = true
       /\ files w'
          = write_file (get_chat_file (effective_chat_id update)) (content doc)
              (files w).
Proof.
  intros w'.
  destruct (handle_document_cases update w)
    as [[Hw _]|[m [doc [Hm [Hd [[_ Hw]|[[Hn [exc [_ Hw]]]|[Hn [_ Hw]]]]]]]]];
    fold w' in Hw; rewrite Hw; cbn [files send]; try (now left);
    right; exists m, doc;
    (destruct (file_name doc) as [name|] eqn:Hname;
     [exists name; repeat split; assumption|discriminate Hn]).
Qed.

(** ** The commands *)

(** X21: [/update] arms the flag for the administrator chat only: after the
    command the flag is set if it was set or the chat is that chat; files
    and jobs are untouched and the chat gets exactly one reply. *)
Theorem update_cmd_admin_only (update : Update) (w : World) :
  let chat_id := effective_chat_id update in
  let w' := update_cmd update w in
  expecting_update w' = expecting_update w || (chat_id =? ADMIN_CHAT)
  /\ files w' = files w /\ job_queue w' = job_queue w
  /\ outbox w'
     = outbox w ++ [(chat_id, if chat_id =? ADMIN_CHAT then MSG_SEND_NEW_FILE
                              else MSG_NO_RIGHTS)].
Proof.
  unfold update_cmd, send.
  destruct (effective_chat_id update =? ADMIN_CHAT); simpl;
    repeat split; now rewrite ?orb_true_r, ?orb_false_r.
Qed.

(** X22: after the administrator has sent [/update], an upload that
    validates is answered as an update and clears the flag, and an upload
    that fails validation leaves the flag set for the next upload. *)
Theorem update_then_upload (update : Update) (w : World) (m : Message)
  (doc : Attachment)
  (Hadmin : effective_chat_id update = ADMIN_CHAT)
  (Hmessage : message update = Some m)
  (Hdoc : pick_document m = Some doc)
  (Hname : is_excel_name
             (lower (match file_name doc with Some n => n | None => [] end))
           = true) :
  let w1 := update_cmd (command_from ADMIN_CHAT) w in
  let w2 := handle_document update w1 in
  match validate (files w2) (get_chat_file ADMIN_CHAT) with
  | Ok _ =>
      expecting_update w2 = false
      /\ outbox w2
         = outbox w ++ [(ADMIN_CHAT, MSG_SEND_NEW_FILE);
                        (ADMIN_CHAT, MSG_UPDATING);
                        (ADMIN_CHAT, MSG_UPDATED);
                        (ADMIN_CHAT, if TEST_MODE then MSG_TEST_REMINDERS
                                     else MSG_DAILY_REMINDERS)]
  | Raise exc =>
      expecting_update w2 = true
      /\ outbox w2
         = outbox w ++ [(ADMIN_CHAT, MSG_SEND_NEW_FILE);
                        (ADMIN_CHAT, MSG_UPDATING);
                        (ADMIN_CHAT, MSG_SAVED_BUT_UNREADABLE exc)]
  end.
Proof.
  intros w1 w2.
  assert (H1 : expecting_update w1 = true /\ files w1 = files w
               /\ outbox w1 = outbox w ++ [(ADMIN_CHAT, MSG_SEND_NEW_FILE)]).
  { unfold w1, update_cmd, send. simpl. repeat split. }
  destruct H1 as [Hflag [Hfiles Hout]].
  destruct (handle_document_excel update w1 m doc Hmessage Hdoc Hname)
    as [[exc [Hv Hw]]|[Hv Hw]];
    fold w2 in Hw; rewrite Hadmin in *; rewrite Hw; cbn [files]; rewrite Hv;
    cbn [expecting_update outbox]; rewrite Hflag, Hout;
    rewrite <- app_assoc; split; reflexivity.
Qed.

(** X25: the document is stored whether or not it validates, so [/info]
    after an upload with an Excel name answers from the uploaded document
    alone, also when the upload was reported as unreadable. *)
Theorem info_after_upload (update : Update) (w : World)
  (m : Message) (doc : Attachment)
  (Hmessage : message update = Some m)
  (Hdoc : pick_document m = Some doc)
  (Hname : is_excel_name
             (lower (match file_name doc with Some n => n | None => [] end))
           = true) :
  let chat_id := effective_chat_id update in
  let path := get_chat_file chat_id in
  let w' := handle_document update w in
  outbox (info_cmd (command_from chat_id) w')
  = outbox w'
    ++ [(chat_id,
         match parse_info (single_file path (content doc)) path with
         | Ok items => format_info items
         | Raise exc => MSG_CANNOT_READ_INFO exc
         end)].
Proof.
  intros chat_id path w'.
  assert (Hfiles : files w' = write_file path (content doc) (files w)).
  { destruct (handle_document_excel update w m doc Hmessage Hdoc Hname)
      as [[exc [_ Hw]]|[_ Hw]]; fold w' in Hw; rewrite Hw; reflexivity. }
  unfold info_cmd. cbn [effective_chat_id command_from]. fold path.
  unfold exists_file. rewrite Hfiles, write_file_same. cbn [negb].
  rewrite (parse_info_local (write_file path (content doc) (files w))
             (single_file path (content doc)) path)
    by (unfold single_file; now rewrite !write_file_same).
  destruct (parse_info (single_file path (content doc)) path) as [items|e];
    reflexivity.
Qed.

(** ** An upload followed by a tick *)

(** X27: after an upload that validates, in a world with a job queue and
    from a chat other than 0, the one job registered is the job of the
    chat, and its tick reads the uploaded document: the reminders it sends
    are those of the assignments of that document. *)
Theorem upload_then_tick (update : Update) (w : World) (m : Message)
  (doc : Attachment) (jobs : list Job) (weights : CourseWeights)
  (assignments : list Assignment) (today : date)
  (Hmessage : message update = Some m)
  (Hdoc : pick_document m = Some doc)
  (Hname : is_excel_name
             (lower (match file_name doc with Some n => n | None => [] end))
           = true)
  (Hchat : effective_chat_id update <> 0)
  (Hqueue : job_queue w = Some jobs)
  (Hread : read_course
             (single_file (get_chat_file (effective_chat_id update))
                (content doc))
             (get_chat_file (effective_chat_id update))
           = Ok (weights, assignments)) :
  let chat_id := effective_chat_id update in
  let job := reminder_job chat_id (get_chat_file chat_id) in
  let w' := handle_document update w in
  job_queue w' = Some [job]
  /\ outbox (daily_reminder_callback job today w')
     = outbox w'
       ++ (if existsb (due_on (date_add_days today 7)) assignments
           then [(chat_id,
                  reminder_text WEEK_LABEL
                    (filter (due_on (date_add_days today 7)) assignments))]
           else [])
       ++ (if existsb (due_on (date_add_days today 1)) assignments
           then [(chat_id,
                  reminder_text DAY_LABEL
                    (filter (due_on (date_add_days today 1)) assignments))]
           else []).
Proof.
  intros chat_id job w'.
  set (path := get_chat_file chat_id) in *.
  assert (Hlocal : write_file path (content doc) (files w) path
                   = single_file path (content doc) path)
    by (unfold single_file; now rewrite !write_file_same).
  assert (Hread' : read_course (write_file path (content doc) (files w)) path
                   = Ok (weights, assignments))
    by (now rewrite (read_course_local _ _ path Hlocal)).
  destruct (handle_document_excel update w m doc Hmessage Hdoc Hname)
    as [[exc [Hv Hw]]|[Hv Hw]]; fold chat_id in Hv, Hw; fold path in Hv, Hw.
  - rewrite validate_read_course, Hread' in Hv. discriminate.
  - fold w' in Hw. rewrite Hw. rewrite Hqueue. cbn [job_queue].
    split; [reflexivity|].
    unfold daily_reminder_callback, job, reminder_job.
    cbn [job_data jd_chat_id jd_xlsx_path files].
    replace ((chat_id =? 0) || negb (truthy path)) with false.
    2:{ symmetry. apply orb_false_iff. split; [now apply Z.eqb_neq|].
        reflexivity. }
    unfold read_course in Hread'.
    apply bind_ok in Hread'. destruct Hread' as [ws [_ Hread']].
    apply bind_ok in Hread'. destruct Hread' as [asg [Hasg Hread']].
    injection Hread' as _ <-. rewrite Hasg.
    apply remind_outbox.
Qed.

(** ** More on rows, labels and attachments *)

Lemma dict_set_keys {V : Type} (k : str) (v : V) (d : list (str * V)) :
  map fst (dict_set k v d)
  = if str_in k (map fst d) then map fst d else map fst d ++ [k].
Proof.
  induction d as [|[k' v'] d IH]; [reflexivity|].
  simpl. unfold str_in in *. simpl. rewrite (str_eqb_sym k k').
  destruct (str_eqb k' k); simpl; [reflexivity|].
  rewrite IH. now destruct (existsb (str_eqb k) (map fst d)).
Qed.

Lemma store_all_first_seen {V : Type} (entries d : list (str * V)) :
  map fst (store_all entries d)
  = fold_left (fun seen k => if str_in k seen then seen else seen ++ [k])
      (map fst entries) (map fst d).
Proof.
  revert d. induction entries as [|[k v] es IH]; intros d; [reflexivity|].
  change (store_all ((k, v) :: es) d) with (store_all es (dict_set k v d)).
  rewrite IH, dict_set_keys. reflexivity.
Qed.

(** X28: the mapping [parse_weights] returns lists its labels in the order
    of the rows where each label first occurs: a repeated label changes the
    weight and not the position. *)
Theorem parse_weights_label_order (fs : filesystem) (xlsx_path : str)
  (weights : CourseWeights)
  (Hparse : parse_weights fs xlsx_path = Ok weights) :
  exists rows entries,
    open_sheet fs xlsx_path ASSESSMENT_SHEET
      (lit "Sheet with course weights not found") = Ok rows
    /\ Forall2 (fun r e => weight_entry r = Ok e) rows entries
    /\ map fst weights = first_seen (map fst (present entries)).
Proof.
  unfold parse_weights in Hparse. apply bind_ok in Hparse.
  destruct Hparse as [rows [Hopen Hloop]].
  apply (for_each_classified weight_entry
           (fun e s => dict_set (fst e) (snd e) s)
           weights_step weights_step_classified) in Hloop.
  destruct Hloop as [entries [HF Hw]].
  change (weights = store_all (present entries) []) in Hw. subst weights.
  exists rows, entries. repeat split; try assumption.
  apply store_all_first_seen.
Qed.

(** X29: a row of two cells or more never raises in [parse_info], and
    raises in [parse_weights] only when its label is not empty and its
    weight is an [int] (or a [bool]) too large for a float, with
    [OverflowError]. *)
Theorem two_cell_rows_raise_iff (c0 c1 : cell) (rest : row) (e : exn) :
  info_entry (c0 :: c1 :: rest) <> Raise e
  /\ (weight_entry (c0 :: c1 :: rest) = Raise e <->
      cell_text c0 <> [] /\ e = overflow_error
      /\ exists n, (c1 = CInt n \/ exists b, c1 = CBool b /\ n = Z.b2z b)
                   /\ float_of_int n = None).
Proof.
  split.
  - unfold info_entry. simpl.
    destruct (is_none c0); simpl;
      [destruct (is_none c1); simpl|];
      try discriminate; destruct (truthy (cell_text c0)); discriminate.
  - unfold weight_entry. simpl.
    assert (Hrest :
      (if truthy (cell_text c0) && is_number c1
       then x <- float_of_cell c1 ;;
            Ok (option_map (fun x => (cell_text c0, x)) x)
       else Ok None) = Raise e <->
      cell_text c0 <> [] /\ e = overflow_error
      /\ exists n, (c1 = CInt n \/ exists b, c1 = CBool b /\ n = Z.b2z b)
                   /\ float_of_int n = None).
    { destruct (truthy (cell_text c0)) eqn:Et; simpl.
      - apply truthy_nonempty in Et.
        destruct c1 as [| b | n | x | s | d | t]; simpl;
          try (split; [discriminate
                      |intros [_ [_ [n' [[H|[b' [H _]]] _]]]]; discriminate]).
        + destruct (float_of_int (Z.b2z b)) eqn:Ef; simpl.
          * split; [discriminate|].
            intros [_ [_ [n' [[H|[b' [H ->]]] Hn]]]]; [discriminate|].
            injection H as <-. congruence.
          * split.
            -- intros H. injection H as <-. repeat split; try assumption.
               exists (Z.b2z b). split; [right; now exists b|assumption].
            -- intros [_ [-> _]]. reflexivity.
        + destruct (float_of_int n) eqn:Ef; simpl.
          * split; [discriminate|].
            intros [_ [_ [n' [[H|[b' [H _]]] Hn]]]]; [|discriminate].
            injection H as <-. congruence.
          * split.
            -- intros H. injection H as <-. repeat split; try assumption.
               exists n. split; [now left|assumption].
            -- intros [_ [-> _]]. reflexivity.
      - split; [discriminate|]. intros [H _].
        destruct (cell_text c0); [contradiction|discriminate]. }
    destruct (is_none c0) eqn:E0; simpl; [|exact Hrest].
    destruct (is_none c1) eqn:E1; simpl; [|exact Hrest].
    split; [discriminate|].
    intros [H _]. unfold cell_text in H. rewrite E0 in H. contradiction.
Qed.

(** X30: a message without a document is ignored in silence or stored: the
    handler takes the first attachment of a list whose name ends in .xlsx
    or .xlsm, and never answers such a message with the request for an
    Excel file. *)
Theorem attachment_fallback (update : Update) (w : World) (m : Message)
  (Hmessage : message update = Some m)
  (Hnodoc : document m = None) :
  let w' := handle_document update w in
  w' = w
  \/ exists l doc name,
       effective_attachment m = AttachmentList l
       /\ find_excel_attachment l = Some doc
       /\ In doc l
       /\ file_name doc = Some name /\ is_excel_name (lower name) = true
       /\ files w'
          = write_file (get_chat_file (effective_chat_id update)) (content doc)
              (files w).
Proof.
  intros w'.
  destruct (pick_document m) as [doc|] eqn:Hpick.
  - right. unfold pick_document in Hpick. rewrite Hnodoc in Hpick.
    destruct (effective_attachment m) as [| a | l] eqn:Ha; try discriminate.
    pose proof Hpick as Hfind. unfold find_excel_attachment in Hfind.
    apply find_some in Hfind. destruct Hfind as [Hin Hex].
    destruct (file_name doc) as [name|] eqn:Hname; [|discriminate].
    apply andb_true_iff in Hex. destruct Hex as [_ Hex].
    exists l, doc, name. repeat split; try assumption.
    assert (Hpick' : pick_document m = Some doc)
      by (unfold pick_document; now rewrite Hnodoc, Ha).
    assert (Hn : is_excel_name
                   (lower (match file_name doc with Some n => n | None => [] end))
                 = true) by now rewrite Hname.
    destruct (handle_document_excel update w m doc Hmessage Hpick' Hn)
      as [[exc [_ Hw]]|[_ Hw]]; fold w' in Hw; rewrite Hw; reflexivity.
  - left. unfold w', handle_document. now rewrite Hmessage, Hpick.
Qed.

End MoreFacts.


Section CommandFacts.

Context {RT : Runtime}.
Variable format_g : float -> str.

(** ** format_formula, help and info *)

Lemma FORMULA_NOT_SET_head : exists rest, FORMULA_NOT_SET = 1060 :: rest.
Proof. eexists. vm_compute. reflexivity. Qed.

(** X13: [format_formula] returns its message for a formula that is not set
    exactly when the mapping is empty; otherwise the text is the prefix and
    one part per label, in the order of the mapping. *)
Theorem format_formula_empty_or_sum (weights : CourseWeights) :
  (format_formula format_g weights = FORMULA_NOT_SET <-> weights = [])
  /\ (format_formula format_g weights = FORMULA_NOT_SET
      \/ format_formula format_g weights
         = lit "Итог = " ++ join (lit " + ") (map (formula_part format_g) weights)).
Proof.
  split.
  - destruct weights as [|e rest]; [split; reflexivity|].
    split; [|discriminate].
    unfold format_formula. cbn [is_nil].
    destruct FORMULA_NOT_SET_head as [n ->]. discriminate.
  - destruct weights; [left|right]; reflexivity.
Qed.



End CommandFacts.

Section StartupFacts.

Context {RT : Runtime}.
Variable int_of_str : str -> option Z.

(** ** The startup hook *)

Lemma startup_queue (stems : list str) (w : World) (jobs : list Job)
  (acc : option (Z * str)) :
  job_queue w
  = match acc with
    | Some (chat_id, stem) => Some [reminder_job chat_id (data_path stem)]
    | None => Some jobs
    end ->
  job_queue (fold_left (startup_step int_of_str) stems w)
  = match fold_left
            (fun acc stem =>
               match int_of_str stem with
               | Some chat_id => Some (chat_id, stem)
               | None => acc
               end) stems acc with
    | Some (chat_id, stem) => Some [reminder_job chat_id (data_path stem)]
    | None => Some jobs
    end.
Proof.
  revert w acc. induction stems as [|stem stems IH]; intros w acc Hq; simpl.
  - exact Hq.
  - apply IH. unfold startup_step.
    destruct (int_of_str stem) as [c|]; [|exact Hq].
    unfold schedule_chat_reminders.
    destruct (job_queue w) eqn:E; [reflexivity|].
    destruct acc as [[c' s']|]; discriminate.
Qed.

(** X26: the startup hook schedules each stored file in turn, and every
    call empties the scheduler first: with a job queue, what is registered
    after the hook is the one job of the last file whose stem reads as a
    chat identifier, and the jobs that were there when no stem does. *)
Theorem startup_keeps_last_job (stems : list str) (w : World) (jobs : list Job)
  (Hqueue : job_queue w = Some jobs) :
  job_queue (startup int_of_str stems w)
  = match last_chat int_of_str stems with
    | Some (chat_id, stem) => Some [reminder_job chat_id (data_path stem)]
    | None => Some jobs
    end.
Proof.
  unfold startup, last_chat. now apply startup_queue.
Qed.

End StartupFacts.

(* ===================================================================== *)
(** * The further properties at work on the sample documents *)
(* ===================================================================== *)

Lemma find_sheet_name_apart_witness :
  lit "Оценивание" <> lit "Задания"
  /\ In (lit "Оценивание") (map fst (course_book (RT := RT0)))
  /\ In (lit "Задания") (map fst (course_book (RT := RT0)))
  /\ str_in (lit "Оценивание") (SHEET_ALIASES ASSESSMENT_SHEET) = true
  /\ str_in (lit "Задания") (SHEET_ALIASES ASSIGNMENTS_SHEET) = true.
Proof.
  apply (find_sheet_name_apart (RT := RT0) course_book
           ASSESSMENT_SHEET ASSIGNMENTS_SHEET).
  - vm_compute. reflexivity.
  - vm_compute. reflexivity.
  - discriminate.
Defined.

Lemma parsers_raise_on_missing_sheet_witness :
  parse_assignments (RT := RT0)
    (single_file (get_chat_file 7) (Xlsx weights_only_book)) (get_chat_file 7)
  = Raise (ValueError (lit "Sheet with assignments not found")).
Proof.
  apply (parsers_raise_on_missing_sheet (RT := RT0)
           (single_file (get_chat_file 7) (Xlsx weights_only_book))
           (get_chat_file 7) weights_only_book ASSIGNMENTS_SHEET).
  - vm_compute. reflexivity.
  - repeat constructor.
Defined.

Lemma parse_assignments_short_row_witness :
  parse_assignments (RT := RT0)
    (single_file (get_chat_file 1) (Xlsx two_column_book)) (get_chat_file 1)
  = Raise index_error.
Proof.
  apply (parse_assignments_short_row (RT := RT0)
           (single_file (get_chat_file 1) (Xlsx two_column_book))
           (get_chat_file 1) [] []
           [CStr (lit "HW1"); CStr (lit "01.03.2024")] []).
  - vm_compute. reflexivity.
  - constructor.
  - discriminate.
  - simpl. lia.
Defined.

Lemma parse_assignments_titles_witness :
  Forall (fun a => a_title a <> [] /\ trimmed (a_title a)
                   /\ trimmed (a_link a)) course_assignments
  /\ exists rows,
       open_sheet (RT := RT0) course_files (get_chat_file 1) ASSIGNMENTS_SHEET
         (lit "Sheet with assignments not found") = Ok rows
       /\ (length course_assignments <= length rows)%nat.
Proof.
  apply (parse_assignments_titles (RT := RT0) course_files (get_chat_file 1)).
  vm_compute. reflexivity.
Defined.

Lemma parse_weights_labels_witness :
  Forall (fun label => label <> [] /\ trimmed label)
    (map fst [(lit "HW", 2); (lit "Exam", 3)]).
Proof.
  apply (parse_weights_labels (RT := RT0) course_files (get_chat_file 1)
           [(lit "HW", 2); (lit "Exam", 3)]).
  vm_compute. reflexivity.
Defined.

Lemma parse_info_rows_in_order_witness :
  let items :=
    [(lit "Чат", lit "t.me/hse_course"); (lit "Ассистент", lit "@@bob");
     (lit "Wiki", lit "https://wiki.hse.example"); (lit "Чат", [])] in
  exists rows entries,
    open_sheet full_files (get_chat_file 1) INFO_SHEET INFO_SHEET_MISSING
    = Ok rows
    /\ Forall2 (fun r e => info_entry r = Ok e) rows entries
    /\ items = present entries
    /\ Forall (fun kv => fst kv <> [] /\ trimmed (fst kv)
                         /\ trimmed (snd kv)) items.
Proof.
  apply (parse_info_rows_in_order (RT := RT0) full_files (get_chat_file 1)).
  vm_compute. reflexivity.
Defined.

Lemma string_due_is_midnight_witness :
  let due := at_midnight 2024 3 8 in
  match_date (RT := RT0) (strip (lit " 08.03.2024 "))
  = Some (dt_day due, dt_month due, dt_year due)
  /\ dt_hour due = 0 /\ dt_minute due = 0 /\ dt_second due = 0
  /\ dt_microsecond due = 0
  /\ 1 <= dt_year due <= 9999 /\ 1 <= dt_month due <= 12
  /\ 1 <= dt_day due <= days_in_month (dt_year due) (dt_month due).
Proof.
  apply (string_due_is_midnight (RT := RT0) (lit " 08.03.2024 ")
           (at_midnight 2024 3 8)).
  vm_compute. reflexivity.
Defined.


Lemma format_info_link_target_witness :
  let key := lit "Wiki" in
  let val := lit " wiki.hse.example/course " in
  info_line (key, val)
  = lit "• <a href=" ++ QUOTE ++ html_escape (link_target val) ++ QUOTE
    ++ lit ">" ++ html_escape key ++ lit "</a>"
  /\ (link_target val = [] <-> strip val = [])
  /\ (link_target val = [] \/ has_scheme (link_target val) = true)
  /\ link_target (link_target val) = link_target val
  /\ link_target (lit "example.com/x") = lit "https://example.com/x"
  /\ link_target (lit "https://example.com/x") = lit "https://example.com/x".
Proof.
  apply (format_info_link_target (lit "Wiki") (lit " wiki.hse.example/course ")).
  vm_compute. reflexivity.
Defined.


Lemma daily_reminder_silent_witness :
  daily_reminder_callback job_7 (mkdate 2024 3 7) world_idle = world_idle.
Proof.
  apply (daily_reminder_silent (RT := RT0) job_7 (mkdate 2024 3 7) world_idle).
  right. right. eexists. vm_compute. reflexivity.
Defined.

Lemma handle_document_frame_witness :
  let w' := handle_document failing_upload world_chat_1 in
  files w' (get_chat_file 1) = files world_chat_1 (get_chat_file 1)
  /\ exists sent,
       outbox w' = outbox world_chat_1 ++ sent
       /\ (length sent <= 3)%nat
       /\ Forall (fun m => fst m = effective_chat_id failing_upload) sent.
Proof.
  apply (handle_document_frame (RT := RT0) failing_upload world_chat_1 1).
  discriminate.
Defined.

Lemma update_then_upload_witness :
  let w1 := update_cmd (command_from ADMIN_CHAT) world_idle in
  let w2 := handle_document admin_upload w1 in
  match validate (files w2) (get_chat_file ADMIN_CHAT) with
  | Ok _ =>
      expecting_update w2 = false
      /\ outbox w2
         = outbox world_idle
           ++ [(ADMIN_CHAT, MSG_SEND_NEW_FILE);
               (ADMIN_CHAT, MSG_UPDATING);
               (ADMIN_CHAT, MSG_UPDATED);
               (ADMIN_CHAT, MSG_DAILY_REMINDERS)]
  | Raise exc =>
      expecting_update w2 = true
      /\ outbox w2
         = outbox world_idle
           ++ [(ADMIN_CHAT, MSG_SEND_NEW_FILE);
               (ADMIN_CHAT, MSG_UPDATING);
               (ADMIN_CHAT, MSG_SAVED_BUT_UNREADABLE exc)]
  end.
Proof.
  apply (update_then_upload (RT := RT0) admin_upload world_idle
           (excel_message course_book) (excel_doc course_book)).
  - reflexivity.
  - reflexivity.
  - reflexivity.
  - vm_compute. reflexivity.
Defined.


Lemma info_after_upload_witness :
  let w' := handle_document full_upload world_idle in
  outbox (info_cmd (RT := RT0) (command_from 1) w')
  = outbox w'
    ++ [(1,
         match parse_info full_files (get_chat_file 1) with
         | Ok items => format_info items
         | Raise exc => MSG_CANNOT_READ_INFO exc
         end)].
Proof.
  apply (info_after_upload (RT := RT0) full_upload world_idle
           (excel_message full_book) (excel_doc full_book)).
  - reflexivity.
  - reflexivity.
  - vm_compute. reflexivity.
Defined.

Lemma startup_keeps_last_job_witness :
  job_queue (startup sample_int sample_stems world_chat_2)
  = match last_chat sample_int sample_stems with
    | Some (chat_id, stem) =>
        Some [reminder_job (RT := RT0) chat_id (data_path stem)]
    | None => Some [job_2]
    end.
Proof.
  apply (startup_keeps_last_job (RT := RT0) sample_int sample_stems
           world_chat_2 [job_2]).
  reflexivity.
Defined.

Lemma upload_then_tick_witness :
  let today := mkdate 2024 3 7 in
  let w' := handle_document full_upload world_idle in
  job_queue w' = Some [job_1]
  /\ outbox (daily_reminder_callback job_1 today w')
     = outbox w'
       ++ (if existsb (due_on (date_add_days today 7)) course_assignments
           then [(1,
                  reminder_text WEEK_LABEL
                    (filter (due_on (date_add_days today 7)) course_assignments))]
           else [])
       ++ (if existsb (due_on (date_add_days today 1)) course_assignments
           then [(1,
                  reminder_text DAY_LABEL
                    (filter (due_on (date_add_days today 1)) course_assignments))]
           else []).
Proof.
  apply (upload_then_tick (RT := RT0) full_upload world_idle
           (excel_message full_book) (excel_doc full_book) []
           [(lit "HW", 2); (lit "Exam", 3)] course_assignments
           (mkdate 2024 3 7)).
  - reflexivity.
  - reflexivity.
  - vm_compute. reflexivity.
  - discriminate.
  - reflexivity.
  - vm_compute. reflexivity.
Defined.

Lemma parse_weights_label_order_witness :
  exists rows entries,
    open_sheet (RT := RT0) course_files (get_chat_file 1) ASSESSMENT_SHEET
      (lit "Sheet with course weights not found") = Ok rows
    /\ Forall2 (fun r e => weight_entry r = Ok e) rows entries
    /\ map fst [(lit "HW", 2); (lit "Exam", 3)]
       = first_seen (map fst (present entries)).
Proof.
  apply (parse_weights_label_order (RT := RT0) course_files (get_chat_file 1)
           [(lit "HW", 2); (lit "Exam", 3)]).
  vm_compute. reflexivity.
Defined.

Lemma attachment_fallback_witness :
  let update := mkUpdate (RT := RT0) 5 (Some album_message) in
  let w' := handle_document update world_idle in
  w' = world_idle
  \/ exists l doc name,
       effective_attachment album_message = AttachmentList l
       /\ find_excel_attachment l = Some doc
       /\ In doc l
       /\ file_name doc = Some name /\ is_excel_name (lower name) = true
       /\ files w'
          = write_file (get_chat_file 5) (content doc) (files world_idle).
Proof.
  apply (attachment_fallback (RT := RT0) (mkUpdate 5 (Some album_message))
           world_idle album_message).
  - reflexivity.
  - reflexivity.
Defined.
